(** * Fasttext embedding: a shallow embedding of
    [mindnlp/modules/embeddings/fasttext_embedding.py]

    The Python class [Fasttext] is modelled by pure functions over explicit
    data.  Text is a list of Unicode code points, the file system is a finite
    map from paths to file contents (decoded text), exceptions are values of
    [PyError], and the methods that touch the file system run in a small
    state-and-error monad that also records every I/O request in a log. *)

From Stdlib Require Import Ascii String List ZArith QArith Lia.
From Stdlib Require Import DecimalString.
From stdpp Require Import base option list gmap strings.

Open Scope list_scope.
Open Scope nat_scope.

(** ** Text *)

(** A character of a Python [str] is a Unicode code point. *)
Definition char := N.

Definition text := list char.

(** The text of a literal (the literals of this file are ASCII). *)
Definition txt (s : string) : text := map N_of_ascii (list_ascii_of_string s).

Definition NL : char := 10%N.
Definition CR : char := 13%N.
Definition SP : char := 32%N.
Definition SLASH : char := 47%N.

(** [str.isspace] on one character, which is also what [str.split()] takes
    as a separator: the characters of general category Zs or of
    bidirectional class WS, B or S.  These are U+0009..U+000D,
    U+001C..U+0020, U+0085, U+00A0, U+1680, U+2000..U+200A, U+2028, U+2029,
    U+202F, U+205F and U+3000. *)
Definition py_isspace (c : char) : bool :=
  (((9 <=? c) && (c <=? 13)) || ((28 <=? c) && (c <=? 32))
   || (c =? 133) || (c =? 160) || (c =? 5760)
   || ((8192 <=? c) && (c <=? 8202))
   || (c =? 8232) || (c =? 8233) || (c =? 8239) || (c =? 8287)
   || (c =? 12288))%N.

(** The blanks of the numpy text reader ([NumPyOS_ascii_isspace] on the
    UTF-8 bytes of the string): TAB..CR and the space.  A character beyond
    U+007F is encoded in bytes that are no blanks. *)
Definition c_isspace (c : char) : bool :=
  (((9 <=? c) && (c <=? 13)) || (c =? 32))%N.

(** [str(n)] for a non-negative integer and [str(z)] for an integer. *)
Definition str_nat (n : nat) : text :=
  txt (NilZero.string_of_uint (Nat.to_uint n)).

Definition str_Z (z : Z) : text :=
  txt (NilZero.string_of_int (Z.to_int z)).

(** [sep.join(parts)] *)
Fixpoint join (sep : text) (parts : list text) : text :=
  match parts with
  | [] => []
  | [p] => p
  | p :: ps => p ++ sep ++ join sep ps
  end.

(** Reading a text file opened with the default [newline=None]: the
    sequences CR LF and a lone CR are both handed to the program as LF. *)
Fixpoint universal_newlines (s : text) : text :=
  match s with
  | [] => []
  | c :: s' =>
      if decide (c = CR) then
        match s' with
        | c' :: s'' =>
            if decide (c' = NL) then NL :: universal_newlines s''
            else NL :: universal_newlines s'
        | [] => [NL]
        end
      else c :: universal_newlines s'
  end.

(** Iterating over a file object: the lines, each with its terminating LF
    (the last one may lack it). *)
Fixpoint readlines (s : text) : list text :=
  match s with
  | [] => []
  | c :: s' =>
      if decide (c = NL) then [c] :: readlines s'
      else match readlines s' with
           | [] => [[c]]
           | l :: ls => (c :: l) :: ls
           end
  end.

(** [islice(it, 1, None)] *)
Definition islice1 {A} (l : list A) : list A := tl l.

Fixpoint lstrip (sp : char -> bool) (s : text) : text :=
  match s with
  | [] => []
  | c :: s' => if sp c then lstrip sp s' else s
  end.

(** The longest prefix without a separator, and what follows it. *)
Fixpoint span_word (sp : char -> bool) (s : text) : text * text :=
  match s with
  | [] => ([], [])
  | c :: s' =>
      if sp c then ([], s)
      else let '(w, r) := span_word sp s' in (c :: w, r)
  end.

(** [line.split(maxsplit=1)]: leading whitespace is skipped, the first field
    is cut at the next whitespace, the whitespace after it is skipped and
    what remains (if anything) is the second field, trailing whitespace
    included. *)
Definition split_maxsplit1 (line : text) : list text :=
  match lstrip py_isspace line with
  | [] => []
  | s =>
      let '(word, rest) := span_word py_isspace s in
      match lstrip py_isspace rest with
      | [] => [word]
      | rest' => [word; rest']
      end
  end.

(** [s.split()]: the fields between runs of whitespace. *)
Fixpoint fields_go (cur : text) (s : text) : list text :=
  match s with
  | [] => match cur with [] => [] | _ => [cur] end
  | c :: s' =>
      if py_isspace c then
        match cur with
        | [] => fields_go [] s'
        | _ => cur :: fields_go [] s'
        end
      else fields_go (cur ++ [c]) s'
  end.

Definition fields (s : text) : list text := fields_go [] s.

(** [file.seek(0); file.write(header)] on a file whose content so far is
    [content]: the first characters are overwritten, the file grows if the
    header is longer than the content. *)
Definition overwrite_at0 (header content : text) : text :=
  header ++ drop (length header) content.

(** [re.sub(r".+/", "", url)] on a string without line breaks: the greedy
    match starts at the first character and ends at the last slash that has a
    character before it. *)
Fixpoint after_last_slash (s : text) : option text :=
  match s with
  | [] => None
  | c :: s' =>
      match after_last_slash s' with
      | Some r => Some r
      | None => if decide (c = SLASH) then Some s' else None
      end
  end.

Definition re_sub_dirs (url : text) : text :=
  match url with
  | [] => []
  | _ :: s' => match after_last_slash s' with Some r => r | None => url end
  end.

(** [os.path.join] on POSIX. *)
Definition path_join2 (path b : text) : text :=
  match b with
  | c :: _ =>
      if decide (c = SLASH) then b
      else match last path with
           | None => b
           | Some e => if decide (e = SLASH) then path ++ b else path ++ SLASH :: b
           end
  | [] =>
      match last path with
      | None => b
      | Some e => if decide (e = SLASH) then path else path ++ [SLASH]
      end
  end.

Definition os_path_join (a : text) (p : list text) : text :=
  foldl path_join2 a p.


(** ** Exceptions and results *)

Inductive PyError :=
  | ValueError (msg : text)
  | AssertionError (msg : text)
  | IndexError (msg : text)
  | TypeError (msg : text)
  | RuntimeError (msg : text)
  | KeyError (key : text)
  | FileNotFoundError (path : text)
  | JSONDecodeError (path : text)
  | ServiceError (msg : text).

Inductive Result (A : Type) :=
  | Ok (a : A)
  | Raise (e : PyError).
Arguments Ok {A} a.
Arguments Raise {A} e.

#[global] Instance Result_ret : MRet Result := fun A a => Ok a.
#[global] Instance Result_bind : MBind Result := fun A B f m =>
  match m with
  | Ok a => f a
  | Raise e => Raise e
  end.

Definition is_ok {A} (r : Result A) : bool :=
  match r with Ok _ => true | Raise _ => false end.

(** ** Arrays and 32-bit floats *)

(** An n-dimensional array: its shape and its elements in row-major
    order. *)
Record ndarray (A : Type) := NDArray { shape : list nat; data : list A }.
Arguments NDArray {A} shape data.
Arguments shape {A} n.
Arguments data {A} n.

(** What the class needs of [numpy.float32]: the zero of [np.zeros], the
    text [str] gives for a value, and the numpy reader of one number
    ([NumPyOS_ascii_strtod] and the cast to a 32-bit float): the value of the
    longest numeral at the start of a text, the blanks before it skipped,
    with the number of characters read, blanks included; [None] when no
    numeral stands there. *)
Class Float32 (F : Type) := {
  f32_zero : F;
  f32_str : F -> text;
  f32_read : text -> option (F * nat);
}.

(** JSON scalars, as the values of the configuration blob. *)
Inductive JVal :=
  | JNull
  | JBool (b : bool)
  | JNum (q : Q)
  | JStr (s : text).

(** A file holds text or, for a file written by [json.dump], the object it
    encodes: the JSON encoding itself is the [json] library's. *)
Inductive FileData :=
  | TextFile (content : text)
  | JsonFile (obj : gmap text JVal).

Inductive IOEvent :=
  | EvMakedirs (path : text)
  | EvExists (path : text)
  | EvOpenRead (path : text)
  | EvOpenWrite (path : text)
  | EvCacheFile (filename cache_dir url : text)
  | EvUnzip (path dir : text)
  | EvRandom (n : Z)
  | EvLog (msg : text).

(** ** The vocabulary *)

(** Modelled from the spec: the class [Vocab] of [mindspore.dataset.text],
    which is not part of the sources.  The spec (3, 4.2) makes it an ordered
    mapping from tokens to ids that are contiguous from 0 and without
    duplicate tokens: the tokens are kept in id order, the id of a token is
    its position. *)
Record Vocab := MkVocab { vocab_tokens : list text }.

(** Modelled from the spec: [Vocab.from_list(word_list, special_tokens,
    special_first)].  Spec 4.2: with [special_first] the special tokens take
    the first ids and the file tokens the following ones, otherwise the file
    tokens come first and the special tokens last.  Spec 3 excludes duplicate
    tokens: a list with a repeated token is refused. *)
Definition Vocab_from_list (word_list special_tokens : list text)
    (special_first : bool) : Result Vocab :=
  let all := if special_first then special_tokens ++ word_list
             else word_list ++ special_tokens in
  if decide (NoDup all) then Ok (MkVocab all)
  else Raise (RuntimeError (txt "from_list: word_list contains duplicate word")).

Fixpoint index_of (tok : text) (l : list text) : option nat :=
  match l with
  | [] => None
  | t :: l' => if decide (t = tok) then Some 0 else S <$> index_of tok l'
  end.

(** Modelled from the spec: the id of a token ([Vocab.tokens_to_ids]). *)
Definition token_to_id (v : Vocab) (tok : text) : option nat :=
  index_of tok (vocab_tokens v).

(** Modelled from the spec: [TokenEmbedding.get_word_vocab] followed by
    [list(vocab.keys())], the tokens in id order (spec 4.5). *)
Definition vocab_keys (v : Vocab) : list text := vocab_tokens v.

(** ** The parser of vector files *)

Section Parser.
Context {F : Type} `{!Float32 F}.

(** The numpy text reader after a number, with [sep=' ']: it skips the
    blanks, and goes on with what follows when it skipped at least one and
    the string has not ended. *)
Definition skip_separator (s : text) : option text :=
  match lstrip c_isspace s with
  | [] => None
  | rest => if length rest <? length s then Some rest else None
  end.

(** The loop of the numpy text reader: a number is read and kept, then the
    separator is skipped.  The loop ends where no number can be read, at the
    end of the string, and where a number is followed by something else than
    a blank (the number is kept; numpy then warns that the string could not
    be read to its end, and returns what it read).  Every turn reads at least
    one character, so [fuel] beyond the length of the string is never used
    up. *)
Fixpoint read_numbers (fuel : nat) (s : text) : list F :=
  match fuel with
  | 0 => []
  | S fuel' =>
      match f32_read s with
      | None => []
      | Some (x, n) =>
          if n =? 0 then []
          else match skip_separator (drop n s) with
               | Some rest => x :: read_numbers fuel' rest
               | None => [x]
               end
      end
  end.

(** [np.fromstring(embedding, dtype=np.float32, sep=' ')] *)
Definition np_fromstring (s : text) : list F :=
  read_numbers (S (length s)) s.

(** One turn of the loop of [from_pretrained] and [load]:
    [word, embedding = line.split(maxsplit=1)] and the two [append]s. *)
Definition parse_line (line : text) : Result (text * list F) :=
  match split_maxsplit1 line with
  | [word; embedding] => Ok (word, np_fromstring embedding)
  | [] | [_] =>
      Raise (ValueError (txt "not enough values to unpack (expected 2)"))
  | _ => Raise (ValueError (txt "too many values to unpack (expected 2)"))
  end.

Fixpoint parse_lines (lines : list text)
    : Result (list text * list (list F)) :=
  match lines with
  | [] => Ok ([], [])
  | line :: rest =>
      '(word, vec) ← parse_line line;
      '(tokens, embeddings) ← parse_lines rest;
      Ok (word :: tokens, vec :: embeddings)
  end.

(** The loop over [islice(file, 1, None)] on the content of the file. *)
Definition read_vectors (content : text)
    : Result (list text * list (list F)) :=
  parse_lines (islice1 (readlines (universal_newlines content))).

(** [np.array(embeddings).astype(np.float32)] on a list of rows: rows of
    one length give a 2-D array, an empty list gives the 1-D array of
    shape [(0,)], rows of different lengths are refused. *)
Definition np_array (rows : list (list F)) : Result (ndarray F) :=
  match rows with
  | [] => Ok (NDArray [0] [])
  | r :: rs =>
      if forallb (fun r' => length r' =? length r) rs
      then Ok (NDArray [length rows; length r] (concat rows))
      else Raise (ValueError (txt "setting an array element with a sequence."))
  end.
End Parser.

(** ** The world: files, the random generator and the log of I/O requests *)

Record World (F : Type) := MkWorld {
  fs : gmap text FileData;
  io_log : list IOEvent;
  (** the row [np.random.rand(n)] draws, cast to 32-bit floats *)
  np_random : Z -> list F;
}.
Arguments MkWorld {F} fs io_log np_random.
Arguments fs {F} w.
Arguments io_log {F} w.
Arguments np_random {F} w.

(** Computations that read and change the world and may raise. *)
Definition IO (F A : Type) : Type := World F -> Result A * World F.

#[global] Instance IO_ret {F} : MRet (IO F) := fun A a w => (Ok a, w).
#[global] Instance IO_bind {F} : MBind (IO F) := fun A B f m w =>
  match m w with
  | (Ok a, w') => f a w'
  | (Raise e, w') => (Raise e, w')
  end.

Definition raise {F A} (e : PyError) : IO F A := fun w => (Raise e, w).

Definition lift {F A} (r : Result A) : IO F A := fun w => (r, w).

Definition emit {F} (ev : IOEvent) : IO F unit := fun w =>
  (Ok tt, MkWorld (fs w) (io_log w ++ [ev]) (np_random w)).

Definition get_fs {F} : IO F (gmap text FileData) := fun w => (Ok (fs w), w).

Definition put_file {F} (path : text) (d : FileData) : IO F unit := fun w =>
  (Ok tt, MkWorld (<[path := d]> (fs w)) (io_log w) (np_random w)).

Definition draw {F} (n : Z) : IO F (list F) := fun w => (Ok (np_random w n), w).

(** The collaborators the class calls and the sources do not hold:
    [cache_file] and [unzip] of [mindnlp.utils], and the dropout layer of the
    base class. *)
Class Services (F : Type) := {
  cache_file : text -> text -> text -> IO F (text * text);
  unzip : text -> text -> IO F unit;
  nn_dropout : JVal -> ndarray F -> ndarray F;
}.

Definition JSON_FILENAME : text := txt "fasttext_hyper.json".
Definition EMBED_FILENAME : text := txt "fasttext.txt".

Section Class_Fasttext.
Context {F : Type} `{!Float32 F} `{!Services F}.

(** *** File system primitives *)

Definition os_path_exists (path : text) : IO F bool :=
  _ ← emit (EvExists path);
  files ← get_fs;
  mret (bool_decide (is_Some (files !! path))).

Definition os_makedirs (path : text) : IO F unit := emit (EvMakedirs path).

(** [open(path, encoding='utf-8')] and reading the whole file. *)
Definition read_text (path : text) : IO F text :=
  _ ← emit (EvOpenRead path);
  files ← get_fs;
  match files !! path with
  | Some (TextFile c) => mret c
  | Some (JsonFile _) => raise (ValueError (txt "not a vector file"))
  | None => raise (FileNotFoundError path)
  end.

(** [open(path, 'r')] and [json.load]. *)
Definition read_json (path : text) : IO F (gmap text JVal) :=
  _ ← emit (EvOpenRead path);
  files ← get_fs;
  match files !! path with
  | Some (JsonFile o) => mret o
  | Some (TextFile _) => raise (JSONDecodeError path)
  | None => raise (FileNotFoundError path)
  end.

(** [open(path, 'w')], the writes, and closing the file. *)
Definition write_file (path : text) (d : FileData) : IO F unit :=
  _ ← emit (EvOpenWrite path);
  put_file path d.

Definition logging_info (msg : text) : IO F unit := emit (EvLog msg).

Definition np_random_rand (n : Z) : IO F (list F) :=
  _ ← emit (EvRandom n);
  draw n.

Definition np_zeros (n : Z) : list F := replicate (Z.to_nat n) f32_zero.

(** *** The class *)

Definition urls : gmap text text :=
  {[ txt "1M" :=
       txt "https://dl.fbaipublicfiles.com/fasttext/vectors-english/wiki-news-300d-1M.vec.zip";
     txt "1M-subword" :=
       txt "https://dl.fbaipublicfiles.com/fasttext/vectors-english/wiki-news-300d-1M-subword.vec.zip" ]}.

Definition dims_supported : list Z := [300%Z].

Record Fasttext := MkFasttext {
  _word_vocab : Vocab;
  vocab_size : nat;
  embed : ndarray F;
  _embed_dim : nat;
  requires_grad : JVal;
  train_state : JVal;
  dropout_p : JVal;
  kwargs : gmap text JVal;
}.

(** [1 - dropout], the argument of [nn.Dropout]: defined on numbers
    (booleans are integers in Python).  The checks [nn.Dropout] makes on
    its argument are the framework's and are left out. *)
Definition one_minus (dropout : JVal) : Result Q :=
  match dropout with
  | JNum q => Ok (1 - q)%Q
  | JBool b => Ok (if b then 0 else 1)%Q
  | JNull | JStr _ =>
      Raise (TypeError (txt "unsupported operand type(s) for -"))
  end.

(** [Fasttext.__init__] *)
Definition Fasttext_init (vocab : Vocab) (init_embed : ndarray F)
    (requires_grad : JVal) (dropout : JVal) (train_state : JVal)
    (kwargs : gmap text JVal) : Result Fasttext :=
  match shape init_embed with
  | n :: d :: _ =>
      _ ← one_minus dropout;
      Ok (MkFasttext vocab n init_embed d requires_grad train_state
            dropout kwargs)
  | _ => Raise (IndexError (txt "tuple index out of range"))
  end.

Definition get_word_vocab (self : Fasttext) : Vocab := _word_vocab self.

(** The two membership tests that open [from_pretrained]. *)
Definition check_arguments (name : text) (dims : Z) : Result unit :=
  if bool_decide (urls !! name = None) then
    Raise (ValueError
      (txt "The argument 'name' must in dict_keys(['1M', '1M-subword']), but got "
         ++ name ++ txt "."))
  else if negb (bool_decide (dims ∈ dims_supported)) then
    Raise (ValueError
      (txt "The argument 'dims' must in [300], but got "
         ++ str_Z dims ++ txt "."))
  else Ok tt.

(** [cls.urls[name]] *)
Definition urls_getitem (name : text) : Result text :=
  match urls !! name with
  | Some url => Ok url
  | None => Raise (KeyError name)
  end.

(** [Fasttext.from_pretrained] *)
Definition from_pretrained (name : text) (dims : Z) (root : text)
    (special_tokens : text * text) (special_first : bool)
    : IO F (Fasttext * Vocab) :=
  _ ← lift (check_arguments name dims);
  let cache_dir := os_path_join root [txt "embeddings"; txt "Fasttext"] in
  url ← lift (urls_getitem name);
  let download_file_name := re_sub_dirs url in
  let fasttext_file_name :=
    txt "wiki-news-" ++ str_Z dims ++ txt "d-" ++ name ++ txt ".vec" in
  _ ← emit (EvCacheFile download_file_name cache_dir url);
  '(path, _) ← cache_file download_file_name cache_dir url;
  let decompress_path := os_path_join cache_dir [fasttext_file_name] in
  found ← os_path_exists decompress_path;
  _ ← (if (found : bool) then mret tt
       else (_ ← emit (EvUnzip path cache_dir); unzip path cache_dir)
       : IO F unit);
  let fasttext_file_path := os_path_join cache_dir [fasttext_file_name] in
  content ← read_text fasttext_file_path;
  '(tokens, embeddings) ← lift (read_vectors content);
  rnd ← np_random_rand dims;
  let embeddings :=
    if special_first then rnd :: np_zeros dims :: embeddings
    else embeddings ++ [rnd; np_zeros dims] in
  vocab ← lift (Vocab_from_list tokens
                  [special_tokens.1; special_tokens.2] special_first);
  arr ← lift (np_array embeddings);
  self ← lift (Fasttext_init vocab arr (JBool true) (JNum (1 # 2))
                 (JBool true) ∅);
  mret (self, vocab).

(** The first part of [from_pretrained], to the end of reading the vector
    file: the two tests of the arguments, the download, the test for the
    unpacked file, the unpacking and the reading (lines 94 to 112).  Its
    result is the text the loop of [from_pretrained] works on. *)
Definition fetch_vectors (name : text) (dims : Z) (root : text) : IO F text :=
  _ ← lift (check_arguments name dims);
  let cache_dir := os_path_join root [txt "embeddings"; txt "Fasttext"] in
  url ← lift (urls_getitem name);
  let download_file_name := re_sub_dirs url in
  let fasttext_file_name :=
    txt "wiki-news-" ++ str_Z dims ++ txt "d-" ++ name ++ txt ".vec" in
  _ ← emit (EvCacheFile download_file_name cache_dir url);
  '(path, _) ← cache_file download_file_name cache_dir url;
  let decompress_path := os_path_join cache_dir [fasttext_file_name] in
  found ← os_path_exists decompress_path;
  _ ← (if (found : bool) then mret tt
       else (_ ← emit (EvUnzip path cache_dir); unzip path cache_dir)
       : IO F unit);
  let fasttext_file_path := os_path_join cache_dir [fasttext_file_name] in
  read_text fasttext_file_path.

(** *** Lookup *)

Definition size_of (sh : list nat) : nat := foldr Nat.mul 1 sh.

(** Row [i] of an array along its first axis. *)
Definition row_of {A} (a : ndarray A) (i : nat) : list A :=
  let d := size_of (tl (shape a)) in
  take d (drop (i * d) (data a)).

(** Modelled from the spec: [ops.gather(params, indices, 0)] of the
    framework.  Spec 4.4: the rows are gathered by index, and an id outside
    the rows of the table is an index error (no clamping, no wrapping). *)
Fixpoint gather_rows (params : ndarray F) (indices : list Z)
    : Result (list F) :=
  match indices with
  | [] => Ok []
  | i :: rest =>
      if bool_decide (0 ≤ i < Z.of_nat (hd 0%nat (shape params)))%Z then
        out ← gather_rows params rest;
        Ok (row_of params (Z.to_nat i) ++ out)
      else Raise (IndexError (txt "gather: index out of range"))
  end.

Definition ops_gather (params : ndarray F) (indices : list Z)
    : Result (ndarray F) :=
  out ← gather_rows params indices;
  Ok (NDArray (length indices :: tl (shape params)) out).

(** [ops.reshape]: the new shape must hold as many elements. *)
Definition ops_reshape {A} (a : ndarray A) (sh : list nat)
    : Result (ndarray A) :=
  if decide (size_of sh = length (data a)) then Ok (NDArray sh (data a))
  else Raise (ValueError (txt "reshape: element counts differ")).

(** [Fasttext.construct] up to the call of the dropout layer. *)
Definition construct_gather (self : Fasttext) (ids : ndarray Z)
    : Result (ndarray F) :=
  let tensor_ids := ids in
  let out_shape := shape tensor_ids ++ [_embed_dim self] in
  let flat_ids := data tensor_ids in
  output_for_reshape ← ops_gather (embed self) flat_ids;
  ops_reshape output_for_reshape out_shape.

(** [Fasttext.construct] *)
Definition construct (self : Fasttext) (ids : ndarray Z)
    : Result (ndarray F) :=
  output ← construct_gather self ids;
  Ok (nn_dropout (dropout_p self) output).

(** *** Saving and loading *)

Definition save_folder (root foldername : text) : text :=
  os_path_join root
    [txt "embeddings"; txt "Fasttext"; txt "save"; foldername].

(** [embed_list[i]]: indexing the table by a row that it does not have is
    an index error. *)
Definition tensor_row (a : ndarray F) (i : nat) : Result (list F) :=
  if decide (i < hd 0 (shape a)) then Ok (row_of a i)
  else Raise (IndexError (txt "index out of range")).

(** One line of the vector file: the body of the loop of [save]. *)
Definition save_line (vocab_list : list text) (embed_list : ndarray F)
    (i : nat) : Result text :=
  match vocab_list !! i with
  | None => Raise (IndexError (txt "list index out of range"))
  | Some vocab_write =>
      embed_write ← tensor_row embed_list i;
      let vec_write := join [SP] (map f32_str embed_write) in
      Ok (vocab_write ++ [SP] ++ vec_write ++ [NL])
  end.

(** The loop of [save] over the indices [idx]: the text written, and the
    exception that stopped the loop, if any. *)
Fixpoint save_lines (vocab_list : list text) (embed_list : ndarray F)
    (idx : list nat) : text * option PyError :=
  match idx with
  | [] => ([], None)
  | i :: rest =>
      match save_line vocab_list embed_list i with
      | Raise e => ([], Some e)
      | Ok line =>
          let '(body, err) := save_lines vocab_list embed_list rest in
          (line ++ body, err)
      end
  end.

Definition placeholder : text := replicate 30 SP ++ [NL].

Definition header_text (nums dims : nat) : text :=
  str_nat nums ++ [SP] ++ str_nat dims.

(** The configuration blob [save] dumps. *)
Definition hyper_of (self : Fasttext) : gmap text JVal :=
  <[txt "train_state" := train_state self]>
    (<[txt "requires_grad" := requires_grad self]>
       (<[txt "dropout" := dropout_p self]> (kwargs self))).

(** [Fasttext.save] *)
Definition save (self : Fasttext) (foldername root : text) : IO F unit :=
  let folder := save_folder root foldername in
  _ ← os_makedirs folder;
  let vocab := get_word_vocab self in
  let embed_list := embed self in
  let vocab_list := vocab_keys vocab in
  let nums := vocab_size self in
  let dims := _embed_dim self in
  _ ← write_file (os_path_join folder [JSON_FILENAME])
        (JsonFile (hyper_of self));
  let '(body, err) := save_lines vocab_list embed_list (seq 0 nums) in
  match err with
  | Some e =>
      _ ← write_file (os_path_join folder [EMBED_FILENAME])
            (TextFile (placeholder ++ body));
      raise e
  | None =>
      _ ← write_file (os_path_join folder [EMBED_FILENAME])
            (TextFile (overwrite_at0 (header_text nums dims)
                         (placeholder ++ body)));
      logging_info (txt "Embedding has been saved to " ++ folder)
  end.

(** The two assertions at the start of [load]. *)
Fixpoint assert_files (folder : text) (names : list text) : IO F unit :=
  match names with
  | [] => mret tt
  | name :: rest =>
      found ← os_path_exists (os_path_join folder [name]);
      if (found : bool) then assert_files folder rest
      else raise (AssertionError
                    (name ++ txt " not found in " ++ folder ++ txt "."))
  end.

(** [cls(vocab, Tensor(embeddings), **hyper)]: the keys of the blob are
    bound to the parameters of [__init__] of the same name, the others go
    to [kwargs]; a key that names a positional parameter is a type
    error. *)
Definition Fasttext_init_kw (vocab : Vocab) (init_embed : ndarray F)
    (hyper : gmap text JVal) : Result Fasttext :=
  if bool_decide (is_Some (hyper !! txt "vocab")
                  ∨ is_Some (hyper !! txt "init_embed"))
  then Raise (TypeError (txt "__init__() got multiple values for argument"))
  else
    Fasttext_init vocab init_embed
      (default (JBool true) (hyper !! txt "requires_grad"))
      (default (JNum (1 # 2)) (hyper !! txt "dropout"))
      (default (JBool true) (hyper !! txt "train_state"))
      (delete (txt "train_state")
         (delete (txt "dropout") (delete (txt "requires_grad") hyper))).

(** [Fasttext.load] *)
Definition load (foldername root : text) : IO F Fasttext :=
  let folder := save_folder root foldername in
  _ ← assert_files folder [JSON_FILENAME; EMBED_FILENAME];
  hyper ← read_json (os_path_join folder [JSON_FILENAME]);
  content ← read_text (os_path_join folder [EMBED_FILENAME]);
  '(tokens, embeddings) ← lift (read_vectors content);
  vocab ← lift (Vocab_from_list tokens [] true);
  arr ← lift (np_array embeddings);
  _ ← logging_info (txt "Load embedding from " ++ folder);
  lift (Fasttext_init_kw vocab arr hyper).
End Class_Fasttext.
Arguments Fasttext F : clear implicits.

(** ** The invariants of the data model *)

Section Invariants.
Context {F : Type} `{!Float32 F} `{!Services F}.

(** Spec 3: the table is a matrix of [vocab_size] rows of [embed_dim]
    columns, and the vocabulary has one token for each row. *)
Definition well_formed (self : Fasttext F) : Prop :=
  shape (embed self) = [vocab_size self; _embed_dim self]
  ∧ length (data (embed self)) = vocab_size self * _embed_dim self
  ∧ length (vocab_keys (get_word_vocab self)) = vocab_size self.

#[global] Instance well_formed_dec self : Decision (well_formed self).
Proof. unfold well_formed. apply _. Defined.

(** A token the vector file can hold: not empty and without whitespace. *)
Definition clean (s : text) : Prop :=
  s ≠ [] ∧ Forall (fun c => py_isspace c = false) s.

#[global] Instance clean_dec s : Decision (clean s).
Proof. unfold clean. apply _. Defined.

(** A table entry whose text holds no whitespace and is read back as [y],
    to its end, when a blank follows it. *)
Definition reads_back (x y : F) : Prop :=
  clean (f32_str x)
  ∧ ∀ c rest, c_isspace c = true →
      f32_read (f32_str x ++ c :: rest) = Some (y, length (f32_str x)).

(** A well-shaped array of ids. *)
Definition well_shaped {A} (a : ndarray A) : Prop :=
  length (data a) = size_of (shape a).

(** Row-major offset of a multi-index in an array of shape [sh]. *)
Fixpoint offset (sh idx : list nat) : nat :=
  match sh, idx with
  | n :: sh', i :: idx' => i * size_of sh' + offset sh' idx'
  | _, _ => 0
  end.

(** A multi-index that is within the shape. *)
Fixpoint in_bounds (sh idx : list nat) : Prop :=
  match sh, idx with
  | [], [] => True
  | n :: sh', i :: idx' => i < n ∧ in_bounds sh' idx'
  | _, _ => False
  end.

(** [a[idx]] *)
Definition at_index {A} (a : ndarray A) (idx : list nat) : option A :=
  data a !! offset (shape a) idx.
(** The line [save] writes for the token [tok] of id [i]. *)
Definition vector_line (e : ndarray F) (i : nat) (tok : text) : text :=
  tok ++ [SP] ++ join [SP] (map f32_str (row_of e i)) ++ [NL].


(** A character that neither ends a line nor is read as a line end. *)
Definition line_char (c : char) : Prop := c ≠ NL ∧ c ≠ CR.

(** Hyperparameters that [__init__] takes: a dropout that [1 - dropout] is
    defined on, and extra options that are not named like the two positional
    parameters. *)
Definition init_accepts (self : Fasttext F) : Prop :=
  is_ok (one_minus (dropout_p self)) = true
  ∧ kwargs self !! txt "vocab" = None
  ∧ kwargs self !! txt "init_embed" = None.
End Invariants.

(** ** A concrete reading of the floats: the integral values *)

Definition is_digit (c : char) : bool := ((48 <=? c) && (c <=? 57))%N.

Definition digit_of (c : char) : option nat :=
  if is_digit c then Some (N.to_nat (c - 48)) else None.

Fixpoint digits_value (acc : nat) (s : text) : option nat :=
  match s with
  | [] => Some acc
  | c :: s' => d ← digit_of c; digits_value (10 * acc + d) s'
  end.

Definition parse_uint (s : text) : option nat :=
  match s with
  | [] => None
  | _ => digits_value 0 s
  end.

(** The digits at the start of a text, and what follows them. *)
Definition span_digits (s : text) : text * text :=
  span_word (fun c => negb (is_digit c)) s.

(** An exponent: [e] or [E], an optional sign, and a digit. *)
Definition starts_exponent (s : text) : bool :=
  match s with
  | c :: r =>
      if ((c =? 101) || (c =? 69))%N then
        match r with
        | d :: r' =>
            if ((d =? 43) || (d =? 45))%N
            then match r' with d' :: _ => is_digit d' | [] => false end
            else is_digit d
        | [] => false
        end
      else false
  | [] => false
  end.

(** The reader of one number for the floats of integral value: blanks, an
    optional sign, digits, and an optional point with digits after it, at
    least one digit in all, as [" 7"], ["-3.0"], ["12."] or [".0"].  A
    numeral with a digit other than 0 after the point, or with an exponent,
    is a number that is not of integral value or is not written as Python
    writes the floats of this instance: the reader gives no value for it. *)
Definition read_integral (s : text) : option (Z * nat) :=
  let s1 := lstrip c_isspace s in
  let '(neg, s2) :=
    match s1 with
    | c :: r =>
        if (c =? 45)%N then (true, r)
        else if (c =? 43)%N then (false, r)
        else (false, s1)
    | [] => (false, [])
    end in
  let '(ip, s3) := span_digits s2 in
  let '(fp, s4) :=
    match s3 with
    | c :: r =>
        if (c =? 46)%N then
          let '(fp, r') := span_digits r in
          match ip, fp with
          | [], [] => ([], s3)
          | _, _ => (fp, r')
          end
        else ([], s3)
    | [] => ([], s3)
    end in
  match ip ++ fp with
  | [] => None
  | _ =>
      if starts_exponent s4 then None
      else if forallb (fun c => (c =? 48)%N) fp then
        n ← digits_value 0 ip;
        Some (if neg then (- Z.of_nat n)%Z else Z.of_nat n,
              length s - length s4)
      else None
  end.

(** The floats of integral value, written as Python writes them
    (["3.0"]). *)
#[global] Instance Float32_integral : Float32 Z := {
  f32_zero := 0%Z;
  f32_str z := str_Z z ++ txt ".0";
  f32_read := read_integral;
}.

(** Collaborators that find the archive already downloaded and unpacked, and
    a dropout layer in inference mode. *)
#[global] Instance Services_local : Services Z := {
  cache_file filename cache_dir url :=
    mret (os_path_join cache_dir [filename], url);
  unzip path dir := mret tt;
  nn_dropout p a := a;
}.

(** A line of a vector file: the token and [n] times the value [v]. *)
Definition vec_line (tok : text) (n : nat) (v : Z) : text :=
  tok ++ [SP] ++ join [SP] (replicate n (f32_str v)) ++ [NL].

Definition pretrained_path : text :=
  txt "/r/embeddings/Fasttext/wiki-news-300d-1M.vec".

Definition pretrained_text : text :=
  txt "2 300" ++ [NL] ++ vec_line (txt "cat") 300 1 ++ vec_line (txt "dog") 300 2.

(** A world that holds an unpacked pretrained file of two tokens and whose
    random generator draws rows of sevens. *)
Definition world_pretrained : World Z :=
  MkWorld {[ pretrained_path := TextFile pretrained_text ]} []
    (fun n => replicate (Z.to_nat n) 7%Z).

Definition default_special_tokens : text * text := (txt "<pad>", txt "<unk>").


(** Worlds for [load]: a root with nothing saved, one where only the
    configuration of the folder [m] is there, and one with both files. *)
Definition world_empty : World Z :=
  MkWorld ∅ [] (fun n => replicate (Z.to_nat n) 7%Z).

Definition saved_json_path : text :=
  txt "/r/embeddings/Fasttext/save/m/fasttext_hyper.json".

Definition saved_embed_path : text :=
  txt "/r/embeddings/Fasttext/save/m/fasttext.txt".

Definition world_json_only : World Z :=
  MkWorld {[ saved_json_path := JsonFile ∅ ]} []
    (fun n => replicate (Z.to_nat n) 7%Z).

(** The vector file announces two columns and its lines have one. *)
Definition short_rows_text : text :=
  txt "2 2" ++ [NL] ++ txt "cat 1.0" ++ [NL] ++ txt "dog 3.0" ++ [NL].

Definition world_short_rows : World Z :=
  MkWorld {[ saved_json_path := JsonFile ∅;
             saved_embed_path := TextFile short_rows_text ]} []
    (fun n => replicate (Z.to_nat n) 7%Z).

(** The dimension the header line of a vector file announces, and the number
    of floats the numpy reader finds on a data line. *)
Definition header_dims (content : text) : option nat :=
  match readlines (universal_newlines content) with
  | header :: _ =>
      match fields header with
      | [_; dims] => parse_uint dims
      | _ => None
      end
  | [] => None
  end.

Definition float_count (line : text) : nat :=
  match split_maxsplit1 line with
  | [_; embedding] => length (np_fromstring (F := Z) embedding)
  | _ => 0
  end.

(** A vector file with a line that has a token and no vector. *)
Definition token_only_text : text :=
  txt "2 1" ++ [NL] ++ txt "cat 1.0" ++ [NL] ++ txt "dog" ++ [NL].

(** A table of two tokens and two columns, with its vocabulary. *)
Definition small_instance : Fasttext Z :=
  MkFasttext (MkVocab [txt "cat"; txt "dog"]) 2
    (NDArray [2; 2] [1; 2; 3; 4]%Z) 2
    (JBool true) (JBool true) (JNum (1 # 2)) ∅.

(** An instance whose only token holds a space. *)
Definition spaced_token_instance : Fasttext Z :=
  MkFasttext (MkVocab [txt "x 7"]) 1 (NDArray [1; 1] [1%Z]) 1
    (JBool true) (JBool true) (JNum (1 # 2)) ∅.

(** [from_pretrained] with the default arguments on the unpacked file. *)
Definition pretrained_run (special_first : bool)
    : Result (Fasttext Z * Vocab) * World Z :=
  from_pretrained (txt "1M") 300 (txt "/r") default_special_tokens
    special_first world_pretrained.

(** Arrays of ids for the small table: one with an id past the end, and a
    matrix of valid ids. *)
Definition far_ids : ndarray Z := NDArray [2] [1; 5]%Z.

Definition near_ids : ndarray Z := NDArray [1; 2] [1; 0]%Z.

(** A computation that leaves every file as it is, whatever it returns. *)
Definition keeps_files {F A} (m : IO F A) : Prop :=
  ∀ w r w', m w = (r, w') → fs w' = fs w.

(** An instance whose vocabulary is shorter than its table, and one whose
    table has a row and no column. *)
Definition short_vocab_instance : Fasttext Z :=
  MkFasttext (MkVocab [txt "cat"]) 2 (NDArray [2; 2] [1; 2; 3; 4]%Z) 2
    (JBool true) (JBool true) (JNum (1 # 2)) ∅.

Definition no_column_instance : Fasttext Z :=
  MkFasttext (MkVocab [txt "cat"]) 1 (NDArray [1; 0] []) 0
    (JBool true) (JBool true) (JNum (1 # 2)) ∅.

(** Saved folders whose vector file has a line without a vector, and rows
    of two lengths. *)
Definition world_token_only : World Z :=
  MkWorld {[ saved_json_path := JsonFile ∅;
             saved_embed_path := TextFile token_only_text ]} []
    (fun n => replicate (Z.to_nat n) 7%Z).

(** A vector file with a field that is no number. *)
Definition bad_field_text : text :=
  txt "2 2" ++ [NL] ++ txt "cat 1.0 2.0x" ++ [NL] ++ txt "dog 3.0 4.0"
    ++ [NL].

Definition world_bad_field : World Z :=
  MkWorld {[ saved_json_path := JsonFile ∅;
             saved_embed_path := TextFile bad_field_text ]} []
    (fun n => replicate (Z.to_nat n) 7%Z).

Definition ragged_rows_text : text :=
  txt "2 2" ++ [NL] ++ txt "cat 1.0 2.0" ++ [NL] ++ txt "dog 3.0" ++ [NL].

Definition world_ragged_rows : World Z :=
  MkWorld {[ saved_json_path := JsonFile ∅;
             saved_embed_path := TextFile ragged_rows_text ]} []
    (fun n => replicate (Z.to_nat n) 7%Z).

(** ** The outcome of [save] *)

Section Outcomes.
Context {F : Type} `{!Float32 F} `{!Services F}.

(** The text [save] leaves in the vector file: with the header when the
    loop ran to its end, and otherwise the placeholder and the lines written
    before the loop stopped. *)
Definition saved_vector_text (self : Fasttext F) : text :=
  let '(body, err) :=
    save_lines (vocab_keys (get_word_vocab self)) (embed self)
      (seq 0 (vocab_size self)) in
  match err with
  | Some _ => placeholder ++ body
  | None =>
      overwrite_at0 (header_text (vocab_size self) (_embed_dim self))
        (placeholder ++ body)
  end.

(** What [save] returns. *)
Definition save_result (self : Fasttext F) : Result unit :=
  match (save_lines (vocab_keys (get_word_vocab self)) (embed self)
           (seq 0 (vocab_size self))).2 with
  | Some e => Raise e
  | None => Ok tt
  end.
End Outcomes.

(** * Properties *)

(** ** Running computations *)

Lemma IO_bind_ok {F A B} (m : IO F A) (k : A → IO F B) w b w' :
  (m ≫= k) w = (Ok b, w') → ∃ a w1, m w = (Ok a, w1) ∧ k a w1 = (Ok b, w').
Proof.
  unfold mbind, IO_bind. destruct (m w) as [[a|e] w1]; intros H.
  - eauto.
  - discriminate.
Qed.

Lemma IO_bind_run {F A B} (m : IO F A) (k : A → IO F B) w a w1 :
  m w = (Ok a, w1) → (m ≫= k) w = k a w1.
Proof. unfold mbind, IO_bind. intros ->. reflexivity. Qed.

Lemma IO_bind_raise {F A B} (m : IO F A) (k : A → IO F B) w e w1 :
  m w = (Raise e, w1) → (m ≫= k) w = (Raise e, w1).
Proof. unfold mbind, IO_bind. intros ->. reflexivity. Qed.

Lemma Result_bind_ok {A B} (m : Result A) (k : A → Result B) b :
  m ≫= k = Ok b → ∃ a, m = Ok a ∧ k a = Ok b.
Proof. destruct m as [a|e]; simpl; intros H; [eauto | discriminate]. Qed.

Lemma lift_ok {F A} (r : Result A) (w : World F) a w' :
  lift r w = (Ok a, w') → r = Ok a ∧ w' = w.
Proof. unfold lift. intros [= -> ->]. auto. Qed.

(** Inverts a successful run of a sequence of steps, one step at a time. *)
Ltac io_step H :=
  let a := fresh "a" in
  let w := fresh "w" in
  let H1 := fresh "Hstep" in
  apply IO_bind_ok in H as (a & w & H1 & H);
  try match type of H with
      | context [let '(_, _) := ?p in _] => destruct p
      end.

Ltac io_steps H := repeat io_step H.

Section Properties.
Context {F : Type} `{!Float32 F} `{!Services F}.

(** *** Validation of the arguments of [from_pretrained] *)

(** C6: when the name is not a key of [urls] or the dimension is not in
    [dims], [from_pretrained] raises a [ValueError] and leaves the world as
    it was: no request is logged and no file changes.  When both are
    supported the two tests raise nothing. *)
Theorem from_pretrained_validates name dims root special_tokens
    special_first (w : World F) :
  (urls !! name = None ∨ dims ∉ dims_supported →
     ∃ msg, from_pretrained name dims root special_tokens special_first w
            = (Raise (ValueError msg), w))
  ∧ (is_Some (urls !! name) → dims ∈ dims_supported →
     check_arguments name dims = Ok tt).
Proof.
  split.
  - intros Hbad. unfold from_pretrained, check_arguments.
    destruct (bool_decide (urls !! name = None)) eqn:Hname.
    + eexists. reflexivity.
    + apply bool_decide_eq_false in Hname.
      destruct Hbad as [Hbad | Hbad]; [contradiction |].
      rewrite (bool_decide_eq_false_2 _ Hbad). eexists. reflexivity.
  - intros [url Hurl] Hdims. unfold check_arguments.
    rewrite bool_decide_eq_false_2 by congruence.
    rewrite (bool_decide_eq_true_2 _ Hdims). reflexivity.
Qed.

(** *** The hyperparameters [from_pretrained] fixes *)

Lemma Fasttext_init_fields vocab arr rg dp ts kw (self : Fasttext F) :
  Fasttext_init vocab arr rg dp ts kw = Ok self →
  _word_vocab self = vocab ∧ embed self = arr
  ∧ shape arr = vocab_size self :: _embed_dim self :: drop 2 (shape arr)
  ∧ requires_grad self = rg ∧ dropout_p self = dp ∧ train_state self = ts
  ∧ kwargs self = kw.
Proof.
  unfold Fasttext_init. destruct (shape arr) as [|n [|d sh]]; try discriminate.
  destruct (one_minus dp); simpl; [|discriminate].
  intros [= <-]. simpl. repeat split; reflexivity.
Qed.

(** C10: whatever its arguments, an instance [from_pretrained] returns has
    [requires_grad] true, a dropout of 0.5 and [train_state] true (and no
    extra options). *)
Theorem from_pretrained_hyperparameters name dims root special_tokens
    special_first (w w' : World F) self vocab :
  from_pretrained name dims root special_tokens special_first w
    = (Ok (self, vocab), w') →
  requires_grad self = JBool true
  ∧ dropout_p self = JNum (1 # 2)
  ∧ train_state self = JBool true
  ∧ kwargs self = ∅.
Proof.
  intros H. unfold from_pretrained in H.
  io_steps H.
  match goal with
  | Hi : lift (Fasttext_init _ _ _ _ _ _) _ = _ |- _ =>
      apply lift_ok in Hi as [Hinit _]
  end.
  injection H as <- <- <-.
  apply Fasttext_init_fields in Hinit. tauto.
Qed.

(** *** The assertions of [load] *)

Lemma os_path_exists_run path (w : World F) :
  os_path_exists path w
  = (Ok (bool_decide (is_Some (fs w !! path))),
     MkWorld (fs w) (io_log w ++ [EvExists path]) (np_random w)).
Proof. reflexivity. Qed.

(** C9: when the configuration file or the vector file is not in the folder,
    [load] raises an [AssertionError] whose message is the name of the
    missing file, [" not found in "], the folder and a full stop; nothing is
    built and no file changes.  When both are there the assertions pass. *)
Theorem load_asserts_files foldername root (w : World F) :
  (fs w !! os_path_join (save_folder root foldername) [JSON_FILENAME] = None →
     ∃ w', load foldername root w
           = (Raise (AssertionError
                (JSON_FILENAME ++ txt " not found in "
                   ++ save_folder root foldername ++ txt ".")), w')
           ∧ fs w' = fs w)
  ∧ (is_Some (fs w !! os_path_join (save_folder root foldername) [JSON_FILENAME]) →
     fs w !! os_path_join (save_folder root foldername) [EMBED_FILENAME] = None →
     ∃ w', load foldername root w
           = (Raise (AssertionError
                (EMBED_FILENAME ++ txt " not found in "
                   ++ save_folder root foldername ++ txt ".")), w')
           ∧ fs w' = fs w)
  ∧ (is_Some (fs w !! os_path_join (save_folder root foldername) [JSON_FILENAME]) →
     is_Some (fs w !! os_path_join (save_folder root foldername) [EMBED_FILENAME]) →
     ∃ w', assert_files (save_folder root foldername)
             [JSON_FILENAME; EMBED_FILENAME] w = (Ok tt, w')
           ∧ fs w' = fs w).
Proof.
  split; [|split].
  - intros Hj. unfold load. eexists.
    split; [apply IO_bind_raise|]; cbn [assert_files].
    + erewrite IO_bind_run by apply os_path_exists_run.
      rewrite bool_decide_eq_false_2; [reflexivity|].
      rewrite Hj. apply is_Some_None.
    + reflexivity.
  - intros Hj He. unfold load. eexists.
    split; [apply IO_bind_raise|]; cbn [assert_files].
    + erewrite IO_bind_run by apply os_path_exists_run.
      rewrite (bool_decide_eq_true_2 _ Hj).
      erewrite IO_bind_run by apply os_path_exists_run.
      cbn [fs]. rewrite bool_decide_eq_false_2; [reflexivity|].
      rewrite He. apply is_Some_None.
    + reflexivity.
  - intros Hj He. eexists. cbn [assert_files]. split.
    + erewrite IO_bind_run by apply os_path_exists_run.
      rewrite (bool_decide_eq_true_2 _ Hj).
      erewrite IO_bind_run by apply os_path_exists_run.
      cbn [fs]. rewrite (bool_decide_eq_true_2 _ He). reflexivity.
    + reflexivity.
Qed.

(** *** The vocabulary [from_pretrained] builds *)

Lemma index_of_lookup (l : list text) i tok :
  NoDup l → l !! i = Some tok → index_of tok l = Some i.
Proof.
  intros Hnd. revert i. induction Hnd as [|t l Hnotin Hnd IH]; intros i Hi.
  - discriminate.
  - destruct i as [|i]; simpl in *.
    + injection Hi as ->. rewrite decide_True by reflexivity. reflexivity.
    + rewrite decide_False.
      * rewrite (IH i Hi). reflexivity.
      * intros ->. apply Hnotin. eapply list_elem_of_lookup_2, Hi.
Qed.

Lemma Vocab_from_list_ok words specials special_first vocab :
  Vocab_from_list words specials special_first = Ok vocab →
  vocab_tokens vocab
  = (if special_first then specials ++ words else words ++ specials)
  ∧ NoDup (vocab_tokens vocab).
Proof.
  unfold Vocab_from_list. case_decide as Hnd; [|discriminate].
  intros [= <-]. simpl. auto.
Qed.

Lemma read_text_ok path (w w' : World F) c :
  read_text path w = (Ok c, w') →
  fs w !! path = Some (TextFile c) ∧ fs w' = fs w.
Proof.
  unfold read_text, mbind, IO_bind, emit, get_fs. cbn [fs].
  destruct (fs w !! path) as [[c'|o]|]; try discriminate.
  intros [= <- <-]. auto.
Qed.

Lemma np_random_rand_ok n (w w' : World F) r :
  np_random_rand n w = (Ok r, w') → fs w' = fs w.
Proof.
  unfold np_random_rand, mbind, IO_bind, emit, draw.
  intros [= _ <-]. reflexivity.
Qed.

(** What a successful run of [from_pretrained] went through: the first part
    of the method read the vector file, the text was parsed, and the
    vocabulary and the table were built from its tokens and rows. *)
Lemma from_pretrained_fetch name dims root special_tokens special_first
    (w w' : World F) self vocab :
  from_pretrained name dims root special_tokens special_first w
    = (Ok (self, vocab), w') →
  ∃ content w1 tokens rows,
    fetch_vectors name dims root w = (Ok content, w1)
    ∧ read_vectors content = Ok (tokens, rows)
    ∧ np_array (if special_first
                then np_random w1 dims :: np_zeros dims :: rows
                else rows ++ [np_random w1 dims; np_zeros dims])
      = Ok (embed self)
    ∧ vocab_tokens vocab
      = (if special_first
         then [special_tokens.1; special_tokens.2] ++ tokens
         else tokens ++ [special_tokens.1; special_tokens.2])
    ∧ NoDup (vocab_tokens vocab)
    ∧ get_word_vocab self = vocab
    ∧ dropout_p self = JNum (1 # 2).
Proof.
  intros H. unfold from_pretrained in H. io_steps H.
  injection H as <- <- <-.
  match goal with
  | Hr : read_text _ ?wa = (Ok ?c, ?wb) |- _ =>
      exists c, wb;
      assert (Hfetch : fetch_vectors name dims root w = (Ok c, wb))
  end.
  { unfold fetch_vectors. cbv zeta.
    repeat match goal with
    | Hi : ?m ?w0 = (Ok ?a, ?w1) |- (?m ≫= _) ?w0 = _ =>
        rewrite (IO_bind_run _ _ _ _ _ Hi); cbv beta iota
    end.
    assumption. }
  repeat match goal with
  | Hi : lift _ _ = (Ok _, _) |- _ => apply lift_ok in Hi as [Hi ?]
  end.
  subst.
  match goal with
  | Hi : np_random_rand _ _ = (Ok _, _) |- _ =>
      unfold np_random_rand, mbind, IO_bind, emit, draw in Hi;
      injection Hi as <- _
  end.
  match goal with
  | Hi : Fasttext_init _ _ _ _ _ _ = Ok _ |- _ =>
      apply Fasttext_init_fields in Hi as (Hv & He & _ & _ & Hp & _)
  end.
  match goal with
  | Hv' : Vocab_from_list _ _ _ = Ok _ |- _ =>
      apply Vocab_from_list_ok in Hv' as [Htok Hnd]
  end.
  match goal with
  | Hr : read_vectors _ = Ok (?t, ?r) |- _ => exists t, r
  end.
  cbn [np_random] in *. rewrite He.
  repeat split; assumption.
Qed.

(** C2: when [from_pretrained] returns, the vocabulary of the instance is
    built from the tokens parsed from the text that the first part of the
    method read from the vector file, and the two special tokens, and
    nothing else; with [special_first] the two special tokens have the ids 0
    and 1 and the file token at position [i] has the id [i + 2]; without it
    the file token at position [i] has the id [i] and the special tokens
    have the two ids after the last file token. *)
Theorem from_pretrained_vocabulary name dims root special_tokens
    special_first (w w' : World F) self vocab :
  from_pretrained name dims root special_tokens special_first w
    = (Ok (self, vocab), w') →
  ∃ content w1 tokens (rows : list (list F)),
    fetch_vectors name dims root w = (Ok content, w1)
    ∧ read_vectors content = Ok (tokens, rows)
    ∧ get_word_vocab self = vocab
    ∧ length (vocab_keys vocab) = length tokens + 2
    ∧ if special_first then
        token_to_id vocab special_tokens.1 = Some 0
        ∧ token_to_id vocab special_tokens.2 = Some 1
        ∧ ∀ i tok, tokens !! i = Some tok →
                   token_to_id vocab tok = Some (i + 2)
      else
        (∀ i tok, tokens !! i = Some tok → token_to_id vocab tok = Some i)
        ∧ token_to_id vocab special_tokens.1 = Some (length tokens)
        ∧ token_to_id vocab special_tokens.2 = Some (length tokens + 1).
Proof.
  intros H.
  apply from_pretrained_fetch
    in H as (c & w1 & t & r & Hfetch & Hread & _ & Htok & Hnd & Hself & _).
  exists c, w1, t, r. repeat (split; [assumption|]).
  unfold token_to_id, vocab_keys. rewrite Htok in *. split.
  { destruct special_first; rewrite length_app; simpl; lia. }
  destruct special_first.
  - split; [|split].
    + apply index_of_lookup; [exact Hnd | reflexivity].
    + apply index_of_lookup; [exact Hnd | reflexivity].
    + intros i tok Hi. apply index_of_lookup; [exact Hnd|].
      rewrite Nat.add_comm. exact Hi.
  - split; [|split].
    + intros i tok Hi. apply index_of_lookup; [exact Hnd|].
      apply lookup_app_l_Some. exact Hi.
    + apply index_of_lookup; [exact Hnd|].
      rewrite lookup_app_r by lia. rewrite Nat.sub_diag. reflexivity.
    + apply index_of_lookup; [exact Hnd|].
      rewrite lookup_app_r by lia.
      replace (length _ + 1 - length _) with 1 by lia. reflexivity.
Qed.

(** *** Ids that are not rows of the table *)

Lemma gather_rows_out_of_range (params : ndarray F) indices i :
  i ∈ indices →
  ¬ (0 ≤ i < Z.of_nat (hd 0%nat (shape params)))%Z →
  ∃ msg, gather_rows params indices = Raise (IndexError msg).
Proof.
  intros Hin Hout. induction indices as [|j rest IH].
  - apply elem_of_nil in Hin as [].
  - simpl. case_bool_decide as Hj.
    + apply elem_of_cons in Hin as [-> | Hin]; [contradiction|].
      destruct (IH Hin) as [msg ->]. exists msg. reflexivity.
    + eexists. reflexivity.
Qed.

(** C5: looking up an array of ids one of which is below 0 or not below
    [vocab_size] raises an [IndexError]: [construct] returns no array, so the
    id is neither clamped nor wrapped. *)
Theorem construct_out_of_range (self : Fasttext F) (ids : ndarray Z) i :
  well_formed self →
  i ∈ data ids →
  ¬ (0 ≤ i < Z.of_nat (vocab_size self))%Z →
  ∃ msg, construct self ids = Raise (IndexError msg).
Proof.
  intros (Hshape & _ & _) Hin Hout.
  destruct (gather_rows_out_of_range (embed self) (data ids) i Hin)
    as [msg Hg].
  - rewrite Hshape. exact Hout.
  - exists msg. unfold construct, construct_gather, ops_gather.
    rewrite Hg. reflexivity.
Qed.

(** *** Lookup of ids that are rows of the table *)

Lemma size_of_app sh d : size_of (sh ++ [d]) = size_of sh * d.
Proof.
  induction sh as [|n sh IH]; simpl.
  - lia.
  - unfold size_of in *. simpl. rewrite IH. lia.
Qed.

Lemma offset_lt sh idx : in_bounds sh idx → offset sh idx < size_of sh.
Proof.
  revert idx. induction sh as [|n sh IH]; intros [|i idx]; simpl; try tauto.
  - intros _. unfold size_of. simpl. lia.
  - intros [Hi Hb]. specialize (IH idx Hb).
    change (size_of (n :: sh)) with (n * size_of sh). nia.
Qed.

Lemma offset_app sh idx d j :
  in_bounds sh idx →
  offset (sh ++ [d]) (idx ++ [j]) = offset sh idx * d + j.
Proof.
  revert idx. induction sh as [|n sh IH]; intros [|i idx]; simpl; try tauto.
  - intros _. unfold size_of. simpl. lia.
  - intros [Hi Hb]. rewrite (IH idx Hb), size_of_app. lia.
Qed.

Lemma lookup_concat_uniform {A} (rows : list (list A)) d k j :
  Forall (fun r => length r = d) rows →
  j < d →
  concat rows !! (k * d + j) = rows !! k ≫= (.!! j).
Proof.
  intros Hrows Hj. revert k.
  induction Hrows as [|r rows Hr Hrows IH]; intros k.
  - destruct k; reflexivity.
  - destruct k as [|k]; simpl.
    + apply lookup_app_l. lia.
    + rewrite lookup_app_r by lia.
      replace (d + k * d + j - length r) with (k * d + j) by lia.
      apply IH.
Qed.

Lemma length_concat_uniform {A} (rows : list (list A)) d :
  Forall (fun r => length r = d) rows →
  length (concat rows) = length rows * d.
Proof.
  induction 1 as [|r rows Hr Hrows IH]; simpl.
  - reflexivity.
  - rewrite length_app, IH, Hr. reflexivity.
Qed.

Lemma row_of_length {A} (a : ndarray A) n d i :
  shape a = [n; d] → length (data a) = n * d → i < n →
  length (row_of a i) = d.
Proof.
  intros Hs Hl Hi. unfold row_of. rewrite Hs. simpl.
  change (size_of [d]) with (d * 1). rewrite Nat.mul_1_r.
  rewrite length_take, length_drop. nia.
Qed.

Lemma row_of_lookup {A} (a : ndarray A) n d i j :
  shape a = [n; d] → j < d →
  row_of a i !! j = data a !! (i * d + j).
Proof.
  intros Hs Hj. unfold row_of. rewrite Hs. simpl.
  change (size_of [d]) with (d * 1). rewrite Nat.mul_1_r.
  rewrite lookup_take_lt by exact Hj. apply lookup_drop.
Qed.

Lemma gather_rows_ok (params : ndarray F) indices :
  Forall (fun i => (0 ≤ i < Z.of_nat (hd 0%nat (shape params)))%Z) indices →
  gather_rows params indices
  = Ok (concat (map (fun i => row_of params (Z.to_nat i)) indices)).
Proof.
  induction 1 as [|i rest Hi Hrest IH]; simpl.
  - reflexivity.
  - rewrite (bool_decide_eq_true_2 _ Hi), IH. reflexivity.
Qed.

(** C4: for a well-shaped array of ids of shape [S], all of them rows of the
    table, [construct] gathers an array [out] of shape [S ++ [embed_dim]] and
    hands it to the dropout layer; the entry of [out] at a position of [S]
    followed by a column [j] is the entry at column [j] of the table row
    whose id stands at that position. *)
Theorem construct_gathers_rows (self : Fasttext F) (ids : ndarray Z) :
  well_formed self →
  well_shaped ids →
  Forall (fun i => (0 ≤ i < Z.of_nat (vocab_size self))%Z) (data ids) →
  ∃ out,
    construct_gather self ids = Ok out
    ∧ construct self ids = Ok (nn_dropout (dropout_p self) out)
    ∧ shape out = shape ids ++ [_embed_dim self]
    ∧ well_shaped out
    ∧ ∀ idx i j,
        in_bounds (shape ids) idx →
        at_index ids idx = Some i →
        j < _embed_dim self →
        at_index out (idx ++ [j])
        = at_index (embed self) [Z.to_nat i; j].
Proof.
  intros (Hshape & Hlen & _) Hids Hrange.
  set (d := _embed_dim self) in *. set (n := vocab_size self) in *.
  set (rows := map (fun i => row_of (embed self) (Z.to_nat i)) (data ids)).
  assert (Hrows : Forall (fun r => length r = d) rows).
  { unfold rows. apply Forall_fmap. eapply Forall_impl; [exact Hrange|].
    intros i Hi. simpl. apply (row_of_length _ n d); [exact Hshape|exact Hlen|].
    simpl in Hi. lia. }
  assert (Hg : gather_rows (embed self) (data ids) = Ok (concat rows)).
  { apply gather_rows_ok. rewrite Hshape. exact Hrange. }
  assert (Hsize : size_of (shape ids ++ [d]) = length (concat rows)).
  { rewrite size_of_app, (length_concat_uniform _ d Hrows).
    unfold rows. rewrite length_map, Hids. reflexivity. }
  exists (NDArray (shape ids ++ [d]) (concat rows)).
  assert (Hcg : construct_gather self ids
                = Ok (NDArray (shape ids ++ [d]) (concat rows))).
  { unfold construct_gather, ops_gather. rewrite Hg. simpl.
    unfold ops_reshape. simpl. fold d. rewrite decide_True by exact Hsize.
    reflexivity. }
  split; [exact Hcg|]. split; [|split; [reflexivity|split]].
  - unfold construct. rewrite Hcg. reflexivity.
  - unfold well_shaped. simpl. symmetry. exact Hsize.
  - intros idx i j Hb Hi Hj. unfold at_index in *. simpl.
    rewrite (offset_app _ _ _ _ Hb), (lookup_concat_uniform _ d _ _ Hrows Hj).
    unfold rows. rewrite list_lookup_fmap, Hi. simpl.
    rewrite (row_of_lookup _ n d _ _ Hshape Hj), Hshape. simpl.
    f_equal. change (size_of [d]) with (d * 1). unfold size_of. simpl. lia.
Qed.

(** *** The vector file [save] writes *)

Lemma save_lines_ok (e : ndarray F) pre rest :
  length pre + length rest ≤ hd 0 (shape e) →
  save_lines (pre ++ rest) e (seq (length pre) (length rest))
  = (concat (imap (fun i => vector_line e (length pre + i)) rest), None).
Proof.
  revert pre. induction rest as [|tok rest IH]; intros pre Hn.
  - reflexivity.
  - cbn [length seq save_lines]. unfold save_line.
    rewrite lookup_app_r by reflexivity.
    rewrite Nat.sub_diag. cbn [lookup list_lookup].
    unfold tensor_row. cbn [length] in Hn. rewrite decide_True by lia.
    cbn [mbind Result_bind].
    specialize (IH (pre ++ [tok])). rewrite length_app in IH. simpl in IH.
    rewrite <- app_assoc in IH. simpl in IH.
    rewrite Nat.add_1_r in IH. rewrite IH by lia.
    cbn [imap concat]. rewrite Nat.add_0_r.
    rewrite (imap_ext ((fun i => vector_line e (length pre + i)) ∘ S)
               (fun i => vector_line e (S (length pre) + i)) rest).
    + reflexivity.
    + intros i x _. simpl. f_equal. lia.
Qed.

Lemma overwrite_placeholder header body :
  length header ≤ 30 →
  overwrite_at0 header (placeholder ++ body)
  = header ++ replicate (30 - length header) SP ++ [NL] ++ body.
Proof.
  intros Hh. unfold overwrite_at0, placeholder. f_equal.
  rewrite <- !app_assoc.
  rewrite drop_app_le by (rewrite length_replicate; exact Hh).
  rewrite drop_replicate. reflexivity.
Qed.

Lemma digits_no_space d :
  Forall (fun c => py_isspace c = false) (txt (NilEmpty.string_of_uint d)).
Proof.
  induction d; simpl; constructor; try exact IHd; reflexivity.
Qed.

Lemma str_nat_no_space n :
  Forall (fun c => py_isspace c = false) (str_nat n).
Proof.
  unfold str_nat, NilZero.string_of_uint.
  destruct (Nat.to_uint n); try apply digits_no_space.
  repeat constructor.
Qed.

Lemma no_space_not_newline s :
  Forall (fun c => py_isspace c = false) s → NL ∉ s.
Proof.
  intros Hs Hin. rewrite Forall_forall in Hs. specialize (Hs _ Hin).
  discriminate.
Qed.

(** What [save] leaves in the world when no line fails. *)
Lemma save_run (self : Fasttext F) foldername root (w : World F) body :
  save_lines (vocab_keys (get_word_vocab self)) (embed self)
    (seq 0 (vocab_size self)) = (body, None) →
  ∃ log,
    save self foldername root w
    = (Ok tt,
       MkWorld
         (<[os_path_join (save_folder root foldername) [EMBED_FILENAME] :=
              TextFile (overwrite_at0
                          (header_text (vocab_size self) (_embed_dim self))
                          (placeholder ++ body))]>
            (<[os_path_join (save_folder root foldername) [JSON_FILENAME] :=
                 JsonFile (hyper_of self)]> (fs w)))
         log (np_random w)).
Proof.
  intros Hl. unfold save. rewrite Hl. eexists. reflexivity.
Qed.

(** C8: for a well-formed instance whose header text has at most 30
    characters, [save] leaves a vector file made of the header text, the
    spaces of the 30-character placeholder that the header did not
    overwrite, a line break (none stands inside the header text), and then
    one line for each token of the vocabulary in id order: the token, a
    space, the texts of the floats of its row joined by spaces, and a line
    break. *)
Theorem save_vector_file_format (self : Fasttext F) foldername root
    (w : World F) :
  well_formed self →
  length (header_text (vocab_size self) (_embed_dim self)) ≤ 30 →
  ∃ w',
    save self foldername root w = (Ok tt, w')
    ∧ fs w' !! os_path_join (save_folder root foldername) [EMBED_FILENAME]
      = Some (TextFile
          (header_text (vocab_size self) (_embed_dim self)
             ++ replicate
                  (30 - length (header_text (vocab_size self)
                                  (_embed_dim self))) SP
             ++ [NL]
             ++ concat (imap (vector_line (embed self))
                          (vocab_keys (get_word_vocab self)))))
    ∧ NL ∉ header_text (vocab_size self) (_embed_dim self).
Proof.
  intros (Hshape & Hlen & Hkeys) Hh.
  pose proof (save_lines_ok (embed self) []
                (vocab_keys (get_word_vocab self))) as Hl.
  simpl in Hl. rewrite Hshape, Hkeys in Hl. specialize (Hl (le_n _)).
  destruct (save_run self foldername root w _ Hl) as [log Hrun].
  eexists. split; [exact Hrun|]. split.
  - cbn [fs]. rewrite lookup_insert_eq.
    rewrite (overwrite_placeholder _ _ Hh). reflexivity.
  - unfold header_text. rewrite !elem_of_app, list_elem_of_singleton.
    intros [Hin | [Hin | Hin]]; try discriminate;
      exact (no_space_not_newline _ (str_nat_no_space _) Hin).
Qed.

(** *** What the parser refuses and what it lets through *)

Lemma parse_lines_unsplittable (lines : list text) line :
  line ∈ lines →
  length (split_maxsplit1 line) ≠ 2 →
  ∃ msg, parse_lines (F := F) lines = Raise (ValueError msg).
Proof.
  intros Hin Hbad. induction lines as [|l lines IH].
  - apply elem_of_nil in Hin as [].
  - cbn [parse_lines]. unfold parse_line.
    destruct (split_maxsplit1 l) as [|a [|b [|c rest]]] eqn:Hl;
      try (eexists; reflexivity).
    apply elem_of_cons in Hin as [-> | Hin].
    + rewrite Hl in Hbad. contradiction.
    + destruct (IH Hin) as [msg ->]. exists msg. reflexivity.
Qed.

Lemma parse_lines_length (lines : list text) tokens (rows : list (list F)) :
  parse_lines lines = Ok (tokens, rows) →
  length tokens = length lines ∧ length rows = length lines.
Proof.
  revert tokens rows. induction lines as [|l lines IH]; intros tokens rows H.
  - injection H as <- <-. auto.
  - cbn [parse_lines] in H.
    apply Result_bind_ok in H as ([word vec] & _ & H).
    apply Result_bind_ok in H as ([ts rs] & Hrest & H).
    injection H as <- <-. destruct (IH _ _ Hrest) as [Ht Hr].
    simpl. rewrite Ht, Hr. auto.
Qed.

Lemma np_array_ragged (r r' : list F) rows :
  r' ∈ rows → length r' ≠ length r →
  ∃ msg, np_array (r :: rows) = Raise (ValueError msg).
Proof.
  intros Hin Hne. unfold np_array.
  destruct (forallb _ rows) eqn:Hall; [|eexists; reflexivity].
  rewrite forallb_forall in Hall. apply list_elem_of_In, Hall in Hin.
  apply Nat.eqb_eq in Hin. contradiction.
Qed.

Lemma load_ok_inv foldername root (w w' : World F) self :
  load foldername root w = (Ok self, w') →
  ∃ content tokens rows arr,
    fs w !! os_path_join (save_folder root foldername) [EMBED_FILENAME]
      = Some (TextFile content)
    ∧ read_vectors content = Ok (tokens, rows)
    ∧ np_array rows = Ok arr
    ∧ embed self = arr
    ∧ vocab_keys (get_word_vocab self) = tokens.
Proof.
  intros H. unfold load in H. io_steps H.
  repeat match goal with
  | Hi : lift _ _ = (Ok _, _) |- _ => apply lift_ok in Hi as [Hi ->]
  end.
  assert (Hfs : fs w0 = fs w).
  { clear -Hstep. cbn [assert_files] in Hstep.
    rewrite (IO_bind_run _ _ _ _ _ (os_path_exists_run _ _)) in Hstep.
    destruct (bool_decide _); [|discriminate].
    rewrite (IO_bind_run _ _ _ _ _ (os_path_exists_run _ _)) in Hstep.
    destruct (bool_decide _); [|discriminate].
    injection Hstep as Hw. subst w0. reflexivity. }
  assert (Hfs1 : fs w1 = fs w).
  { clear -Hstep0 Hfs. unfold read_json in Hstep0.
    unfold mbind, IO_bind, emit, get_fs in Hstep0. cbn [fs] in Hstep0.
    destruct (fs w0 !! _) as [[c|o]|]; try discriminate.
    injection Hstep0 as <- <-. exact Hfs. }
  assert (Hread : fs w !! os_path_join (save_folder root foldername)
                    [EMBED_FILENAME] = Some (TextFile a1)).
  { clear -Hstep1 Hfs1. unfold read_text in Hstep1.
    unfold mbind, IO_bind, emit, get_fs in Hstep1. cbn [fs] in Hstep1.
    rewrite Hfs1 in Hstep1.
    destruct (fs w !! _) as [[c|o]|]; try discriminate.
    injection Hstep1 as <- <-. reflexivity. }
  unfold Fasttext_init_kw in H. case_bool_decide; [discriminate|].
  apply Fasttext_init_fields in H as (Hv & He & _).
  match goal with
  | Hv' : Vocab_from_list _ _ _ = Ok _ |- _ =>
      apply Vocab_from_list_ok in Hv' as [Htok _]
  end.
  simpl in Htok.
  match goal with
  | Hr : read_vectors ?c = Ok (?t, ?r), Ha : np_array ?r = Ok ?a |- _ =>
      exists c, t, r, a; repeat split; auto
  end.
  unfold vocab_keys, get_word_vocab. rewrite Hv, Htok. reflexivity.
Qed.

(** C7, as the code has it: a data line after the header that does not split
    into a token and a remainder makes the parser raise a [ValueError]; a
    line that does split is taken whatever its remainder holds: its row is
    what the numpy reader reads, which stops without an error at a field
    that is no number; a parse that succeeds has kept one token and one row
    for each data line; rows of different lengths are refused when the
    table is assembled; and [load] and [from_pretrained] return an instance
    only when the parser succeeded on the whole file they read and the
    table could be assembled from all its rows.  The number of floats the
    header announces is not compared with the rows. *)
Theorem parser_aborts_on_unsplittable_line :
  (∀ content line,
     line ∈ islice1 (readlines (universal_newlines content)) →
     length (split_maxsplit1 line) ≠ 2 →
     ∃ msg, read_vectors (F := F) content = Raise (ValueError msg))
  ∧ (∀ content tokens (rows : list (list F)),
       read_vectors content = Ok (tokens, rows) →
       length tokens = length (islice1 (readlines (universal_newlines content)))
       ∧ length rows = length (islice1 (readlines (universal_newlines content))))
  ∧ (∀ (r r' : list F) rows,
       r' ∈ rows → length r' ≠ length r →
       ∃ msg, np_array (r :: rows) = Raise (ValueError msg))
  ∧ (∀ foldername root (w w' : World F) self,
       load foldername root w = (Ok self, w') →
       ∃ content tokens rows,
         fs w !! os_path_join (save_folder root foldername) [EMBED_FILENAME]
           = Some (TextFile content)
         ∧ read_vectors content = Ok (tokens, rows)
         ∧ np_array rows = Ok (embed self))
  ∧ (∀ name dims root special_tokens special_first (w w' : World F)
       self vocab,
       from_pretrained name dims root special_tokens special_first w
         = (Ok (self, vocab), w') →
       ∃ content w1 tokens rows,
         fetch_vectors name dims root w = (Ok content, w1)
         ∧ read_vectors content = Ok (tokens, rows)
         ∧ np_array (if special_first
                     then np_random w1 dims :: np_zeros dims :: rows
                     else rows ++ [np_random w1 dims; np_zeros dims])
           = Ok (embed self))
  ∧ (∀ line word rest,
       split_maxsplit1 line = [word; rest] →
       parse_line (F := F) line = Ok (word, np_fromstring rest)).
Proof.
  repeat split.
  - intros content line Hin Hbad. unfold read_vectors.
    eapply parse_lines_unsplittable; eauto.
  - eapply parse_lines_length; eauto.
  - eapply parse_lines_length; eauto.
  - intros r r' rows. apply np_array_ragged.
  - intros foldername root w w' self H.
    apply load_ok_inv in H as (c & t & r & a & H1 & H2 & H3 & H4 & _).
    exists c, t, r. rewrite H4. auto.
  - intros name dims root st sf w w' self vocab H.
    apply from_pretrained_fetch in H as (c & w1 & t & r & H0 & H1 & H2 & _).
    exists c, w1, t, r. auto.
  - intros line word rest Hs. unfold parse_line. rewrite Hs. reflexivity.
Qed.

(** *** The numpy reader *)

Lemma skip_separator_shorter s rest :
  skip_separator s = Some rest → length rest < length s.
Proof.
  unfold skip_separator. destruct (lstrip c_isspace s) as [|c r]; [discriminate|].
  destruct (length (c :: r) <? length s) eqn:E; [|discriminate].
  intros [= <-]. apply Nat.ltb_lt. exact E.
Qed.

(** The fuel of the numpy reader is never used up: beyond the length of the
    string, more fuel changes nothing. *)
Lemma read_numbers_fuel fuel1 fuel2 (s : text) :
  length s < fuel1 → length s < fuel2 →
  read_numbers (F := F) fuel1 s = read_numbers fuel2 s.
Proof.
  revert fuel2 s. induction fuel1 as [|fuel1 IH]; intros fuel2 s H1 H2; [lia|].
  destruct fuel2 as [|fuel2]; [lia|]. cbn [read_numbers].
  destruct (f32_read s) as [[x n]|]; [|reflexivity].
  destruct (n =? 0); [reflexivity|].
  destruct (skip_separator (drop n s)) as [rest|] eqn:E; [|reflexivity].
  apply skip_separator_shorter in E. rewrite length_drop in E.
  f_equal. apply IH; lia.
Qed.

Lemma np_fromstring_fuel fuel (s : text) :
  length s < fuel → read_numbers (F := F) fuel s = np_fromstring s.
Proof. intros H. apply read_numbers_fuel; [exact H | lia]. Qed.

(** *** Reading back what [save] wrote *)

Lemma c_isspace_py c : c_isspace c = true → py_isspace c = true.
Proof.
  unfold c_isspace, py_isspace.
  rewrite !orb_true_iff, !andb_true_iff, !N.leb_le, !N.eqb_eq. lia.
Qed.

Lemma no_space_c c : py_isspace c = false → c_isspace c = false.
Proof.
  intros H. destruct (c_isspace c) eqn:Hc; [|reflexivity].
  apply c_isspace_py in Hc. congruence.
Qed.

Lemma universal_newlines_id s : CR ∉ s → universal_newlines s = s.
Proof.
  induction s as [|c s IH]; intros Hs; [reflexivity|].
  simpl. rewrite not_elem_of_cons in Hs. destruct Hs as [Hc Hs].
  rewrite decide_False by congruence. rewrite IH by exact Hs. reflexivity.
Qed.

Lemma readlines_line s rest :
  NL ∉ s → readlines (s ++ NL :: rest) = (s ++ [NL]) :: readlines rest.
Proof.
  induction s as [|c s IH]; intros Hs.
  - reflexivity.
  - rewrite not_elem_of_cons in Hs. destruct Hs as [Hc Hs].
    rewrite <- !app_comm_cons. cbn [readlines].
    rewrite decide_False by congruence. rewrite IH by exact Hs.
    reflexivity.
Qed.

Lemma readlines_concat (ls : list text) :
  Forall (fun l => ∃ b, l = b ++ [NL] ∧ NL ∉ b) ls →
  readlines (concat ls) = ls.
Proof.
  induction 1 as [|l ls (b & -> & Hb) Hls IH]; [reflexivity|].
  simpl. rewrite <- app_assoc. simpl. rewrite readlines_line by exact Hb.
  rewrite IH. reflexivity.
Qed.

Lemma lstrip_word sp c s : sp c = false → lstrip sp (c :: s) = c :: s.
Proof. intros H. simpl. rewrite H. reflexivity. Qed.

Lemma span_word_app sp w c rest :
  Forall (fun c => sp c = false) w → sp c = true →
  span_word sp (w ++ c :: rest) = (w, c :: rest).
Proof.
  intros Hw Hc. induction Hw as [|x w Hx Hw IH]; simpl.
  - rewrite Hc. reflexivity.
  - rewrite Hx, IH. reflexivity.
Qed.

Lemma split_maxsplit1_line tok c vec :
  tok ≠ [] →
  Forall (fun c => py_isspace c = false) tok →
  py_isspace c = false →
  split_maxsplit1 (tok ++ SP :: c :: vec) = [tok; c :: vec].
Proof.
  intros Hne Htok Hc. unfold split_maxsplit1.
  destruct tok as [|t tok]; [contradiction|].
  inversion Htok as [|? ? Ht Htok']; subst.
  change ((t :: tok) ++ SP :: c :: vec) with (t :: (tok ++ SP :: c :: vec)).
  rewrite lstrip_word by exact Ht.
  change (t :: (tok ++ SP :: c :: vec)) with ((t :: tok) ++ SP :: c :: vec).
  rewrite (span_word_app py_isspace (t :: tok) SP (c :: vec))
    by (auto; reflexivity).
  change (lstrip py_isspace (SP :: c :: vec))
    with (lstrip py_isspace (c :: vec)).
  rewrite lstrip_word by exact Hc. reflexivity.
Qed.

Lemma skip_separator_blank c d rest :
  c_isspace c = true → c_isspace d = false →
  skip_separator (c :: d :: rest) = Some (d :: rest).
Proof.
  intros Hc Hd. unfold skip_separator. cbn [lstrip]. rewrite Hc, Hd.
  rewrite (proj2 (Nat.ltb_lt _ _)) by (simpl; lia). reflexivity.
Qed.

Lemma join_length sep (strs : list text) :
  Forall (fun s => s ≠ []) strs → length strs ≤ length (join sep strs).
Proof.
  induction 1 as [|s strs Hs Hstrs IH]; [reflexivity|].
  destruct s as [|c s]; [contradiction|].
  destruct strs as [|s2 strs]; [simpl; lia|].
  change (join sep ((c :: s) :: s2 :: strs))
    with ((c :: s) ++ sep ++ join sep (s2 :: strs)).
  rewrite !length_app. simpl in *. lia.
Qed.

Lemma join_head sep s (rest : list text) c cs :
  s = c :: cs → ∃ v, join sep (s :: rest) = c :: v.
Proof.
  intros ->. destruct rest as [|s2 rest]; simpl; eauto.
Qed.

(** The numpy reader on the floats of a row as [save] writes them. *)
Lemma read_numbers_reads_back (xs ys : list F) fuel :
  Forall2 reads_back xs ys → xs ≠ [] → length xs ≤ fuel →
  read_numbers fuel (join [SP] (map f32_str xs) ++ [NL]) = ys.
Proof.
  intros H. revert fuel.
  induction H as [|x y xs ys [[Hne Hx] Hread] Hrest IH];
    intros fuel Hnil Hfuel; [contradiction|].
  destruct fuel as [|fuel]; [simpl in Hfuel; lia|].
  assert (Hlen : (length (f32_str x) =? 0) = false)
    by (apply Nat.eqb_neq; destruct (f32_str x); [contradiction|discriminate]).
  destruct xs as [|x2 xs].
  - inversion Hrest; subst. cbn [map join read_numbers].
    rewrite (Hread NL []) by reflexivity. rewrite Hlen.
    rewrite drop_app_length. reflexivity.
  - cbn [map]. change (join [SP] (f32_str x :: f32_str x2 :: map f32_str xs))
      with (f32_str x ++ SP :: join [SP] (map f32_str (x2 :: xs))).
    rewrite <- app_assoc, <- app_comm_cons. cbn [read_numbers].
    rewrite (Hread SP _) by reflexivity. rewrite Hlen.
    rewrite drop_app_length.
    inversion Hrest as [|? y2 ? ys2 [[Hne2 Hx2] _] _]; subst.
    destruct (f32_str x2) as [|c cs] eqn:E2; [contradiction|].
    destruct (join_head [SP] (c :: cs) (map f32_str xs) c cs eq_refl)
      as [v Hv].
    assert (Hj : join [SP] (map f32_str (x2 :: xs)) = c :: v)
      by (cbn [map]; rewrite E2; exact Hv).
    rewrite Hj. rewrite <- app_comm_cons.
    rewrite skip_separator_blank;
      [| reflexivity | apply no_space_c; inversion Hx2; assumption].
    rewrite app_comm_cons, <- Hj.
    rewrite IH; [reflexivity | discriminate | simpl in *; lia].
Qed.

Lemma no_space_line_char c : py_isspace c = false → line_char c.
Proof. intros H. split; intros ->; discriminate. Qed.

Lemma join_Forall (R : char → Prop) sep (parts : list text) :
  Forall R sep → Forall (Forall R) parts → Forall R (join sep parts).
Proof.
  intros Hsep. induction 1 as [|p parts Hp Hparts IH]; [constructor|].
  destruct parts as [|p2 parts]; [exact Hp|].
  change (join sep (p :: p2 :: parts)) with (p ++ sep ++ join sep (p2 :: parts)).
  rewrite !Forall_app. auto.
Qed.

Lemma concat_rows {A} (ys : list A) d n k :
  concat (map (fun i => take d (drop (i * d) ys)) (seq k n))
  = take (n * d) (drop (k * d) ys).
Proof.
  revert k. induction n as [|n IH]; intros k; [reflexivity|].
  cbn [seq map concat]. rewrite IH.
  replace (S k * d) with (k * d + d) by lia. rewrite <- drop_drop.
  rewrite take_take_drop. f_equal.
Qed.

Lemma row_of_reads_back (e ysarr : ndarray F) n d i :
  shape e = [n; d] → shape ysarr = [n; d] →
  Forall2 reads_back (data e) (data ysarr) →
  Forall2 reads_back (row_of e i) (row_of ysarr i).
Proof.
  intros He Hy H. unfold row_of. rewrite He, Hy.
  apply Forall2_take, Forall2_drop, H.
Qed.

Lemma parse_line_vector_line (e : ndarray F) i tok ys :
  clean tok → row_of e i ≠ [] →
  Forall2 reads_back (row_of e i) ys →
  parse_line (vector_line e i tok) = Ok (tok, ys).
Proof.
  intros [Hne Htok] Hrow Hrb. unfold vector_line.
  assert (Hstrs : Forall (fun s => s ≠ []) (map f32_str (row_of e i))).
  { apply Forall_fmap. eapply Forall2_Forall_l; [exact Hrb|].
    apply Forall_true. intros y x [[Hx1 _] _]. exact Hx1. }
  assert (Hhead : ∃ c v, join [SP] (map f32_str (row_of e i)) = c :: v
                         ∧ py_isspace c = false).
  { destruct (row_of e i) as [|x xs]; [contradiction|].
    inversion Hrb as [|? y ? ys' [[Hx1 Hx2] _] _]; subst.
    destruct (f32_str x) as [|c cs] eqn:Hx; [contradiction|].
    destruct (join_head [SP] (c :: cs) (map f32_str xs) c cs eq_refl)
      as [v Hv].
    exists c, v. split.
    - cbn [map]. rewrite Hx. exact Hv.
    - inversion Hx2; assumption. }
  destruct Hhead as (c & v & Hvec & Hc).
  unfold parse_line.
  replace (tok ++ [SP] ++ join [SP] (map f32_str (row_of e i)) ++ [NL])
    with (tok ++ SP :: c :: (v ++ [NL])) by (rewrite Hvec; reflexivity).
  rewrite (split_maxsplit1_line tok c (v ++ [NL]) Hne Htok Hc).
  unfold np_fromstring.
  replace (c :: v ++ [NL])
    with (join [SP] (map f32_str (row_of e i)) ++ [NL])
    by (rewrite Hvec; reflexivity).
  rewrite (read_numbers_reads_back _ _ _ Hrb Hrow); [reflexivity|].
  pose proof (join_length [SP] _ Hstrs) as Hj.
  rewrite length_map in Hj. rewrite length_app. simpl. lia.
Qed.

Lemma parse_lines_vector_lines (e ysarr : ndarray F) rest k :
  Forall clean rest →
  (∀ i, k ≤ i < k + length rest →
        row_of e i ≠ [] ∧ Forall2 reads_back (row_of e i) (row_of ysarr i)) →
  parse_lines (imap (fun i => vector_line e (k + i)) rest)
  = Ok (rest, map (row_of ysarr) (seq k (length rest))).
Proof.
  intros Hclean. revert k.
  induction Hclean as [|tok rest Htok Hrest IH]; intros k Hrows.
  - reflexivity.
  - cbn [imap parse_lines length seq map]. rewrite Nat.add_0_r.
    destruct (Hrows k) as [Hne Hrb]; [simpl; lia|].
    rewrite (parse_line_vector_line e k tok _ Htok Hne Hrb).
    cbn [mbind Result_bind].
    rewrite (imap_ext ((fun i => vector_line e (k + i)) ∘ S)
               (fun i => vector_line e (S k + i)) rest).
    + rewrite IH; [reflexivity|]. intros i Hi. apply Hrows. simpl. lia.
    + intros i x _. simpl. f_equal. lia.
Qed.

Lemma assert_files_run folder (w : World F) :
  is_Some (fs w !! os_path_join folder [JSON_FILENAME]) →
  is_Some (fs w !! os_path_join folder [EMBED_FILENAME]) →
  ∃ log, assert_files folder [JSON_FILENAME; EMBED_FILENAME] w
         = (Ok tt, MkWorld (fs w) log (np_random w)).
Proof.
  intros Hj He. eexists. cbn [assert_files].
  erewrite IO_bind_run by apply os_path_exists_run.
  rewrite (bool_decide_eq_true_2 _ Hj).
  erewrite IO_bind_run by apply os_path_exists_run.
  cbn [fs]. rewrite (bool_decide_eq_true_2 _ He). reflexivity.
Qed.

Lemma read_json_run path o (w : World F) :
  fs w !! path = Some (JsonFile o) →
  ∃ log, read_json path w = (Ok o, MkWorld (fs w) log (np_random w)).
Proof.
  intros H. eexists. unfold read_json, mbind, IO_bind, emit, get_fs.
  cbn [fs]. rewrite H. reflexivity.
Qed.

Lemma read_text_run path c (w : World F) :
  fs w !! path = Some (TextFile c) →
  ∃ log, read_text path w = (Ok c, MkWorld (fs w) log (np_random w)).
Proof.
  intros H. eexists. unfold read_text, mbind, IO_bind, emit, get_fs.
  cbn [fs]. rewrite H. reflexivity.
Qed.

Lemma saved_paths_distinct folder :
  os_path_join folder [EMBED_FILENAME] ≠ os_path_join folder [JSON_FILENAME].
Proof.
  unfold os_path_join. cbn [foldl]. unfold path_join2.
  change EMBED_FILENAME with (102%N :: tl EMBED_FILENAME).
  change JSON_FILENAME with (102%N :: tl JSON_FILENAME).
  cbv beta iota. rewrite !decide_False by (vm_compute; discriminate).
  destruct (last folder) as [e|]; [destruct (decide (e = SLASH))|];
    intros H; try apply app_inv_head in H; vm_compute in H; discriminate H.
Qed.

(** What [load] returns from a folder that holds a configuration and a
    vector file that parses. *)
Lemma load_run foldername root (w : World F) hyper content tokens rows
    vocab arr self :
  fs w !! os_path_join (save_folder root foldername) [JSON_FILENAME]
    = Some (JsonFile hyper) →
  fs w !! os_path_join (save_folder root foldername) [EMBED_FILENAME]
    = Some (TextFile content) →
  read_vectors content = Ok (tokens, rows) →
  Vocab_from_list tokens [] true = Ok vocab →
  np_array rows = Ok arr →
  Fasttext_init_kw vocab arr hyper = Ok self →
  ∃ w', load foldername root w = (Ok self, w').
Proof.
  intros Hj He Hread Hvocab Harr Hinit. unfold load.
  destruct (assert_files_run (save_folder root foldername) w)
    as [log0 H0]; [rewrite Hj; eauto | rewrite He; eauto |].
  rewrite (IO_bind_run _ _ _ _ _ H0).
  destruct (read_json_run _ hyper (MkWorld (fs w) log0 (np_random w)) Hj)
    as [log1 H1].
  rewrite (IO_bind_run _ _ _ _ _ H1).
  destruct (read_text_run _ content (MkWorld (fs w) log1 (np_random w)) He)
    as [log2 H2].
  rewrite (IO_bind_run _ _ _ _ _ H2).
  unfold lift, mbind, IO_bind. rewrite Hread, Hvocab, Harr. cbn.
  rewrite Hinit. eexists. reflexivity.
Qed.

Lemma Fasttext_init_kw_hyper (self : Fasttext F) vocab n d (ys : list F) :
  init_accepts self →
  ∃ self',
    Fasttext_init_kw vocab (NDArray [n; d] ys) (hyper_of self) = Ok self'
    ∧ _word_vocab self' = vocab ∧ vocab_size self' = n
    ∧ _embed_dim self' = d ∧ embed self' = NDArray [n; d] ys.
Proof.
  intros (Hdrop & Hv & Hi). unfold Fasttext_init_kw, hyper_of.
  rewrite bool_decide_eq_false_2.
  - unfold Fasttext_init. cbn [shape].
    repeat (rewrite lookup_insert_eq
            || rewrite lookup_insert_ne by discriminate).
    cbn [default from_option id]. unfold id.
    destruct (one_minus (dropout_p self)); [|discriminate].
    eexists. split; [reflexivity|]. cbn. auto.
  - rewrite !lookup_insert_ne by discriminate. rewrite Hv, Hi.
    intros [[? [=]] | [? [=]]].
Qed.

Lemma data_lines_back (first : text) (lines : list text) :
  Forall line_char first →
  Forall (fun l => ∃ b, l = b ++ [NL] ∧ Forall line_char b) lines →
  islice1 (readlines (universal_newlines (first ++ [NL] ++ concat lines)))
  = lines.
Proof.
  intros Hfirst Hlines.
  assert (Hcr : CR ∉ first ++ [NL] ++ concat lines).
  { rewrite !elem_of_app, list_elem_of_singleton.
    intros [Hin | [Hin | Hin]]; [| discriminate |].
    - rewrite Forall_forall in Hfirst. apply Hfirst in Hin as [_ Hc].
      contradiction.
    - clear Hfirst. induction Hlines as [|l lines (b & -> & Hb) _ IH].
      + apply elem_of_nil in Hin as [].
      + simpl in Hin. rewrite !elem_of_app, list_elem_of_singleton in Hin.
        destruct Hin as [[Hin | Hin] | Hin]; [| discriminate | auto].
        rewrite Forall_forall in Hb. apply Hb in Hin as [_ Hc].
        contradiction. }
  rewrite (universal_newlines_id _ Hcr).
  change (first ++ [NL] ++ concat lines) with (first ++ NL :: concat lines).
  rewrite readlines_line.
  - cbn [islice1 tl]. apply readlines_concat.
    eapply Forall_impl; [exact Hlines|]. intros l (b & -> & Hb).
    exists b. split; [reflexivity|]. intros Hin.
    rewrite Forall_forall in Hb. apply Hb in Hin as [Hc _]. contradiction.
  - intros Hin. rewrite Forall_forall in Hfirst.
    apply Hfirst in Hin as [Hc _]. contradiction.
Qed.

Lemma header_line_chars n d k :
  Forall line_char (header_text n d ++ replicate k SP).
Proof.
  unfold header_text. rewrite !Forall_app. repeat split.
  - eapply Forall_impl; [apply str_nat_no_space|]. apply no_space_line_char.
  - repeat constructor; discriminate.
  - eapply Forall_impl; [apply str_nat_no_space|]. apply no_space_line_char.
  - apply Forall_replicate. split; discriminate.
Qed.

Lemma vector_lines_chars (e : ndarray F) keys :
  Forall clean keys →
  Forall (fun x => clean (f32_str x)) (data e) →
  Forall (fun l => ∃ b, l = b ++ [NL] ∧ Forall line_char b)
    (imap (vector_line e) keys).
Proof.
  intros Hkeys Hdata. apply Forall_forall. intros l Hl.
  apply elem_of_lookup_imap in Hl as (i & tok & -> & Hi).
  unfold vector_line.
  exists (tok ++ [SP] ++ join [SP] (map f32_str (row_of e i))).
  split; [rewrite <- !app_assoc; reflexivity|].
  rewrite !Forall_app. repeat split.
  - rewrite Forall_forall in Hkeys.
    destruct (Hkeys tok (list_elem_of_lookup_2 _ _ _ Hi)) as [_ Htok].
    eapply Forall_impl; [exact Htok|]. apply no_space_line_char.
  - repeat constructor; discriminate.
  - apply join_Forall; [repeat constructor; discriminate|].
    apply Forall_fmap. unfold row_of.
    eapply Forall_impl; [apply Forall_take, Forall_drop, Hdata|].
    intros x [_ Hx]. simpl.
    eapply Forall_impl; [exact Hx|]. apply no_space_line_char.
Qed.

(** C1, as the code has it: take a well-formed instance with at least one
    token and one column, hyperparameters that [__init__] takes, distinct
    tokens that are not empty and hold no whitespace, a header text of at
    most 30 characters, and table entries whose texts are not empty, hold no
    whitespace and are read back as the values [ys].  Then [save] succeeds,
    [load] of the same folder succeeds, and the loaded instance has the same
    [vocab_size], the same [embed_dim], the same shape and tokens, and the
    table [ys]. *)
Theorem save_load_roundtrip (self : Fasttext F) foldername root
    (w : World F) (ys : list F) :
  well_formed self →
  init_accepts self →
  1 ≤ vocab_size self →
  1 ≤ _embed_dim self →
  NoDup (vocab_keys (get_word_vocab self)) →
  Forall clean (vocab_keys (get_word_vocab self)) →
  Forall2 reads_back (data (embed self)) ys →
  length (header_text (vocab_size self) (_embed_dim self)) ≤ 30 →
  ∃ w1 self' w2,
    save self foldername root w = (Ok tt, w1)
    ∧ load foldername root w1 = (Ok self', w2)
    ∧ vocab_size self' = vocab_size self
    ∧ _embed_dim self' = _embed_dim self
    ∧ shape (embed self') = shape (embed self)
    ∧ data (embed self') = ys
    ∧ vocab_keys (get_word_vocab self') = vocab_keys (get_word_vocab self).
Proof.
  intros (Hshape & Hlen & Hkeys) Hacc Hn Hd Hnd Hclean Hrb Hh.
  set (n := vocab_size self) in *. set (d := _embed_dim self) in *.
  set (keys := vocab_keys (get_word_vocab self)) in *.
  set (e := embed self) in *.
  pose proof (Forall2_length _ _ _ Hrb) as Hys.
  (* what [save] writes *)
  pose proof (save_lines_ok e [] keys) as Hl.
  simpl in Hl. rewrite Hshape, Hkeys in Hl. specialize (Hl (le_n _)).
  destruct (save_run self foldername root w _ Hl) as [log Hsave].
  rewrite (overwrite_placeholder _ _ Hh) in Hsave.
  fold n d e keys in Hsave.
  (* the rows [load] parses *)
  set (ysarr := NDArray [n; d] ys).
  assert (Hrows : ∀ i, 0 ≤ i < 0 + length keys →
            row_of e i ≠ []
            ∧ Forall2 reads_back (row_of e i) (row_of ysarr i)).
  { intros i Hi. split.
    - intros Hnil. apply (f_equal length) in Hnil.
      rewrite (row_of_length e n d i Hshape Hlen) in Hnil by lia.
      simpl in Hnil. lia.
    - apply (row_of_reads_back e ysarr n d i Hshape eq_refl Hrb). }
  pose proof (parse_lines_vector_lines e ysarr keys 0 Hclean Hrows) as Hparse.
  assert (Hread : read_vectors
            (header_text n d ++ replicate (30 - length (header_text n d)) SP
               ++ [NL] ++ concat (imap (vector_line e) keys))
          = Ok (keys, map (row_of ysarr) (seq 0 (length keys)))).
  { unfold read_vectors. rewrite app_assoc.
    rewrite data_lines_back; [exact Hparse | apply header_line_chars |].
    apply vector_lines_chars; [exact Hclean|].
    eapply Forall2_Forall_l; [exact Hrb|]. apply Forall_true.
    intros y x [Hx _]. exact Hx. }
  (* the table [load] assembles *)
  assert (Harr : np_array (map (row_of ysarr) (seq 0 (length keys)))
                 = Ok ysarr).
  { rewrite Hkeys. fold n. destruct n as [|n']; [lia|].
    cbn [seq map]. unfold np_array.
    assert (Hlen_row : ∀ i, i < S n' → length (row_of ysarr i) = d).
    { intros i Hi. apply (row_of_length ysarr (S n') d i eq_refl); [|exact Hi].
      simpl. rewrite <- Hys. exact Hlen. }
    rewrite (proj2 (forallb_forall _ _)).
    - f_equal. unfold ysarr at 1. f_equal.
      + rewrite length_cons, length_map, length_seq, Hlen_row by lia.
        reflexivity.
      + change (row_of ysarr 0 :: map (row_of ysarr) (seq 1 n'))
          with (map (row_of ysarr) (seq 0 (S n'))).
        unfold row_of. cbn [shape ysarr tl data].
        change (size_of [d]) with (d * 1). rewrite Nat.mul_1_r.
        rewrite (concat_rows ys d (S n') 0). simpl drop.
        apply take_ge. rewrite <- Hys, Hlen. lia.
    - intros r Hr. apply in_map_iff in Hr as (i & <- & Hi).
      apply in_seq in Hi. rewrite !Hlen_row by lia. apply Nat.eqb_refl. }
  destruct (Fasttext_init_kw_hyper self (MkVocab keys) n d ys Hacc)
    as (self' & Hinit & Hv' & Hn' & Hd' & He').
  eexists _, self'.
  edestruct (load_run foldername root) as [w2 Hload];
    [| | exact Hread | | exact Harr | exact Hinit |].
  3: { unfold Vocab_from_list. simpl. rewrite decide_True by exact Hnd.
       reflexivity. }
  3: { exists w2. split; [exact Hsave|]. split; [exact Hload|].
       rewrite Hn', Hd', He'. unfold get_word_vocab. rewrite Hv'.
       repeat split; auto. }
  - cbn [fs]. rewrite lookup_insert_ne by apply saved_paths_distinct.
    apply lookup_insert_eq.
  - cbn [fs]. apply lookup_insert_eq.
Qed.

(** *** Computations that write no file *)

Lemma keeps_files_bind {A B} (m : IO F A) (k : A → IO F B) :
  keeps_files m → (∀ a, keeps_files (k a)) → keeps_files (m ≫= k).
Proof.
  intros Hm Hk w r w'. unfold mbind, IO_bind.
  destruct (m w) as [[a|e] w1] eqn:E; intros H.
  - rewrite (Hk a _ _ _ H). exact (Hm _ _ _ E).
  - injection H as <- <-. exact (Hm _ _ _ E).
Qed.

Lemma keeps_files_ret {A} (a : A) : keeps_files (F := F) (mret a).
Proof. intros w r w' [= <- <-]. reflexivity. Qed.

Lemma keeps_files_raise {A} e : keeps_files (F := F) (A := A) (raise e).
Proof. intros w r w' [= <- <-]. reflexivity. Qed.

Lemma keeps_files_lift {A} (x : Result A) : keeps_files (F := F) (lift x).
Proof. intros w r w' [= <- <-]. reflexivity. Qed.

Lemma keeps_files_emit ev : keeps_files (F := F) (emit ev).
Proof. intros w r w' [= <- <-]. reflexivity. Qed.

Lemma keeps_files_get_fs : keeps_files (F := F) get_fs.
Proof. intros w r w' [= <- <-]. reflexivity. Qed.

Lemma keeps_files_exists path : keeps_files (os_path_exists (F := F) path).
Proof.
  unfold os_path_exists.
  repeat (apply keeps_files_bind; [|intros ?]);
    auto using keeps_files_emit, keeps_files_get_fs, keeps_files_ret.
Qed.

Lemma keeps_files_assert folder names :
  keeps_files (assert_files (F := F) folder names).
Proof.
  induction names as [|n rest IH]; simpl.
  - apply keeps_files_ret.
  - apply keeps_files_bind; [apply keeps_files_exists|].
    intros [|]; [exact IH | apply keeps_files_raise].
Qed.

Lemma keeps_files_read_json path : keeps_files (read_json (F := F) path).
Proof.
  unfold read_json.
  apply keeps_files_bind; [apply keeps_files_emit|]. intros _.
  apply keeps_files_bind; [apply keeps_files_get_fs|]. intros files.
  destruct (files !! path) as [[c|o]|];
    auto using keeps_files_ret, keeps_files_raise.
Qed.

Lemma keeps_files_read_text path : keeps_files (read_text (F := F) path).
Proof.
  unfold read_text.
  apply keeps_files_bind; [apply keeps_files_emit|]. intros _.
  apply keeps_files_bind; [apply keeps_files_get_fs|]. intros files.
  destruct (files !! path) as [[c|o]|];
    auto using keeps_files_ret, keeps_files_raise.
Qed.

(** X1: [load] writes no file: whether it returns an instance or raises,
    the file system after the call is the one before it. *)
Theorem load_keeps_files foldername root (w w' : World F) r :
  load foldername root w = (r, w') → fs w' = fs w.
Proof.
  revert w r w'. change (keeps_files (load (F := F) foldername root)).
  unfold load.
  apply keeps_files_bind; [apply keeps_files_assert|]. intros _.
  apply keeps_files_bind; [apply keeps_files_read_json|]. intros hyper.
  apply keeps_files_bind; [apply keeps_files_read_text|]. intros content.
  apply keeps_files_bind; [apply keeps_files_lift|]. intros [tokens rows].
  apply keeps_files_bind; [apply keeps_files_lift|]. intros vocab.
  apply keeps_files_bind; [apply keeps_files_lift|]. intros arr.
  apply keeps_files_bind; [apply keeps_files_emit|]. intros _.
  apply keeps_files_lift.
Qed.

(** *** The instance [from_pretrained] builds *)

Lemma np_array_ok (rows : list (list F)) arr :
  np_array rows = Ok arr →
  rows ≠ [] →
  ∃ d, shape arr = [length rows; d]
       ∧ data arr = concat rows
       ∧ Forall (fun r => length r = d) rows.
Proof.
  destruct rows as [|r rs]; [congruence|]. intros H _. unfold np_array in H.
  destruct (forallb _ rs) eqn:E; [|discriminate].
  injection H as <-. exists (length r). repeat split.
  constructor; [reflexivity|].
  apply Forall_forall. intros r' Hr'.
  rewrite forallb_forall in E. apply Nat.eqb_eq, E.
  apply list_elem_of_In. exact Hr'.
Qed.

Lemma drop_concat_uniform {A} (rows : list (list A)) d k :
  Forall (fun r => length r = d) rows →
  drop (k * d) (concat rows) = concat (drop k rows).
Proof.
  intros Hu. revert k. induction Hu as [|r rows Hr Hu IH]; intros k.
  - cbn [concat]. rewrite !drop_nil. reflexivity.
  - destruct k as [|k]; [reflexivity|].
    cbn [concat drop Nat.mul]. rewrite drop_app_add' by (symmetry; exact Hr).
    apply IH.
Qed.

Lemma row_of_concat {A} (rows : list (list A)) n d k r :
  Forall (fun r => length r = d) rows →
  rows !! k = Some r →
  row_of (NDArray [n; d] (concat rows)) k = r.
Proof.
  intros Hu Hk. unfold row_of. cbn [shape tl data].
  change (size_of [d]) with (d * 1). rewrite Nat.mul_1_r.
  rewrite (drop_concat_uniform rows d k Hu).
  rewrite (drop_S _ _ _ Hk). cbn [concat].
  apply take_app_length'.
  symmetry. eapply (proj1 (Forall_lookup _ _) Hu); eauto.
Qed.

(** What a successful run of [from_pretrained] went through, in full. *)
Lemma from_pretrained_run_inv name dims root special_tokens special_first
    (w w' : World F) self vocab :
  from_pretrained name dims root special_tokens special_first w
    = (Ok (self, vocab), w') →
  ∃ content tokens rows,
    is_Some (urls !! name) ∧ dims = 300%Z
    ∧ fs w' !! os_path_join
               (os_path_join root [txt "embeddings"; txt "Fasttext"])
               [txt "wiki-news-" ++ str_Z dims ++ txt "d-" ++ name
                  ++ txt ".vec"]
      = Some (TextFile content)
    ∧ read_vectors content = Ok (tokens, rows)
    ∧ np_array (if special_first
                then np_random w' dims :: np_zeros dims :: rows
                else rows ++ [np_random w' dims; np_zeros dims])
      = Ok (embed self)
    ∧ vocab_tokens vocab
      = (if special_first
         then [special_tokens.1; special_tokens.2] ++ tokens
         else tokens ++ [special_tokens.1; special_tokens.2])
    ∧ NoDup (vocab_tokens vocab)
    ∧ get_word_vocab self = vocab
    ∧ shape (embed self)
      = vocab_size self :: _embed_dim self :: drop 2 (shape (embed self)).
Proof.
  intros H. unfold from_pretrained in H. io_steps H.
  injection H as <- <- <-.
  repeat match goal with
  | Hi : lift _ _ = (Ok _, _) |- _ => apply lift_ok in Hi as [Hi ?]
  end.
  subst.
  match goal with
  | Hi : read_text _ _ = (Ok _, _) |- _ =>
      apply read_text_ok in Hi as [Hfile Hfs]
  end.
  match goal with
  | Hi : np_random_rand _ _ = (Ok _, _) |- _ =>
      unfold np_random_rand, mbind, IO_bind, emit, draw in Hi;
      injection Hi as <- <-
  end.
  match goal with
  | Hi : Fasttext_init _ _ _ _ _ _ = Ok _ |- _ =>
      apply Fasttext_init_fields in Hi as (Hv & He & Hsh & _)
  end.
  match goal with
  | Hv' : Vocab_from_list _ _ _ = Ok _ |- _ =>
      apply Vocab_from_list_ok in Hv' as [Htok Hnd]
  end.
  match goal with
  | Hc : check_arguments _ _ = Ok _ |- _ =>
      unfold check_arguments in Hc;
      case_bool_decide as Hname; [discriminate|];
      case_bool_decide as Hdims; [|discriminate]
  end.
  match goal with
  | Hr : read_vectors ?c = Ok (?t, ?r) |- _ => exists c, t, r
  end.
  cbn [np_random fs] in *. rewrite Hfs, He.
  repeat split; try assumption.
  - destruct (urls !! name); [eauto | congruence].
  - unfold dims_supported in Hdims.
    apply list_elem_of_singleton in Hdims. exact Hdims.
Qed.

Lemma read_vectors_lengths content tokens (rows : list (list F)) :
  read_vectors content = Ok (tokens, rows) → length tokens = length rows.
Proof.
  unfold read_vectors. intros H.
  apply parse_lines_length in H as [-> ->]. reflexivity.
Qed.

(** X2: an instance [from_pretrained] returns satisfies the invariant of the
    data model: the table has one row for each token of the file and two
    more, 300 columns, and the vocabulary has one token for each row; every
    row parsed from the file holds 300 floats. *)
Theorem from_pretrained_well_formed name dims root special_tokens
    special_first (w w' : World F) self vocab :
  from_pretrained name dims root special_tokens special_first w
    = (Ok (self, vocab), w') →
  ∃ content tokens (rows : list (list F)),
    fs w' !! os_path_join
               (os_path_join root [txt "embeddings"; txt "Fasttext"])
               [txt "wiki-news-" ++ str_Z dims ++ txt "d-" ++ name
                  ++ txt ".vec"]
      = Some (TextFile content)
    ∧ read_vectors content = Ok (tokens, rows)
    ∧ well_formed self
    ∧ vocab_size self = length tokens + 2
    ∧ _embed_dim self = 300
    ∧ Forall (fun r => length r = 300) rows.
Proof.
  intros H.
  apply from_pretrained_run_inv in H
    as (c & t & r & _ & -> & Hfile & Hread & Harr & Htok & _ & Hself & Hsh).
  exists c, t, r. split; [exact Hfile|]. split; [exact Hread|].
  pose proof (read_vectors_lengths _ _ _ Hread) as Hlen.
  apply np_array_ok in Harr as (d & Hshape & Hdata & Hu);
    [|destruct special_first, r; discriminate].
  assert (Hd : d = 300).
  { change 300 with (length (np_zeros (F := F) 300)).
    symmetry. eapply (proj1 (Forall_forall _ _) Hu).
    destruct special_first.
    - right. left.
    - apply elem_of_app. right. right. left. }
  subst d. rewrite Hshape in Hsh. injection Hsh as Hn Hdim.
  assert (Hrows : length (if special_first
                          then np_random w' 300 :: np_zeros 300 :: r
                          else r ++ [np_random w' 300; np_zeros 300])
                  = length t + 2).
  { destruct special_first; [|rewrite length_app]; simpl; lia. }
  rewrite Hrows in *.
  assert (Hr : Forall (fun r0 : list F => length r0 = 300) r).
  { destruct special_first.
    - inversion Hu as [|? ? _ Hu']. inversion Hu'. assumption.
    - apply Forall_app in Hu as [Hu _]. exact Hu. }
  repeat split; auto.
  - rewrite Hshape, <- Hn, <- Hdim. reflexivity.
  - rewrite Hdata, (length_concat_uniform _ 300 Hu), Hrows, <- Hn, <- Hdim.
    reflexivity.
  - rewrite Hself. unfold vocab_keys. rewrite Htok, <- Hn.
    destruct special_first; [|rewrite length_app]; simpl; lia.
Qed.

(** X3: in an instance [from_pretrained] returns, the row of the table at
    the id of a token of the file (of the text the first part of the method
    read) is the row parsed from the line of that token; the row at the id
    of the first special token is the row drawn from the random generator
    and the row at the id of the second special token is the row of
    zeros. *)
Theorem from_pretrained_rows_follow_ids name dims root special_tokens
    special_first (w w' : World F) self vocab :
  from_pretrained name dims root special_tokens special_first w
    = (Ok (self, vocab), w') →
  ∃ content w1 tokens (rows : list (list F)),
    fetch_vectors name dims root w = (Ok content, w1)
    ∧ read_vectors content = Ok (tokens, rows)
    ∧ (∀ i tok r, tokens !! i = Some tok → rows !! i = Some r →
         ∃ id, token_to_id vocab tok = Some id
               ∧ row_of (embed self) id = r)
    ∧ (∃ id, token_to_id vocab special_tokens.1 = Some id
             ∧ row_of (embed self) id = np_random w1 dims)
    ∧ (∃ id, token_to_id vocab special_tokens.2 = Some id
             ∧ row_of (embed self) id = np_zeros dims).
Proof.
  intros H.
  apply from_pretrained_fetch in H
    as (c & w1 & t & r & Hfetch & Hread & Harr & Htok & Hnd & _ & _).
  exists c, w1, t, r. split; [exact Hfetch|]. split; [exact Hread|].
  pose proof (read_vectors_lengths _ _ _ Hread) as Hlen.
  apply np_array_ok in Harr as (d & Hshape & Hdata & Hu);
    [|destruct special_first, r; discriminate].
  destruct (embed self) as [sh dt]. cbn [shape data] in *. subst sh dt.
  unfold token_to_id. rewrite Htok in *.
  destruct special_first.
  - split; [|split].
    + intros i tok r0 Hi Hr. exists (2 + i). split.
      * apply index_of_lookup; [exact Hnd | exact Hi].
      * apply row_of_concat; [exact Hu | exact Hr].
    + exists 0. split.
      * apply index_of_lookup; [exact Hnd | reflexivity].
      * apply row_of_concat; [exact Hu | reflexivity].
    + exists 1. split.
      * apply index_of_lookup; [exact Hnd | reflexivity].
      * apply row_of_concat; [exact Hu | reflexivity].
  - split; [|split].
    + intros i tok r0 Hi Hr. exists i. split.
      * apply index_of_lookup; [exact Hnd|].
        apply lookup_app_l_Some. exact Hi.
      * apply row_of_concat; [exact Hu|].
        apply lookup_app_l_Some. exact Hr.
    + exists (length t). split.
      * apply index_of_lookup; [exact Hnd|].
        rewrite lookup_app_r by lia. rewrite Nat.sub_diag. reflexivity.
      * apply row_of_concat; [exact Hu|].
        rewrite Hlen, lookup_app_r by lia. rewrite Nat.sub_diag. reflexivity.
    + exists (length t + 1). split.
      * apply index_of_lookup; [exact Hnd|].
        rewrite lookup_app_r by lia.
        replace (length t + 1 - length t) with 1 by lia. reflexivity.
      * apply row_of_concat; [exact Hu|].
        rewrite Hlen, lookup_app_r by lia.
        replace (length r + 1 - length r) with 1 by lia. reflexivity.
Qed.

(** *** The instance [load] builds *)

Lemma read_json_ok path (w w' : World F) o :
  read_json path w = (Ok o, w') →
  fs w !! path = Some (JsonFile o) ∧ fs w' = fs w.
Proof.
  unfold read_json, mbind, IO_bind, emit, get_fs. cbn [fs].
  destruct (fs w !! path) as [[c|o']|]; try discriminate.
  intros [= <- <-]. auto.
Qed.

Lemma parse_line_ok line word (vec : list F) :
  parse_line line = Ok (word, vec) →
  ∃ rest, split_maxsplit1 line = [word; rest] ∧ vec = np_fromstring rest.
Proof.
  unfold parse_line.
  destruct (split_maxsplit1 line) as [|a [|b [|c rest]]]; try discriminate.
  intros [= <- <-]. eauto.
Qed.

Lemma parse_lines_lookup (lines : list text) tokens (rows : list (list F)) :
  parse_lines lines = Ok (tokens, rows) →
  ∀ i line, lines !! i = Some line →
    ∃ word rest,
      split_maxsplit1 line = [word; rest]
      ∧ tokens !! i = Some word
      ∧ rows !! i = Some (np_fromstring rest).
Proof.
  revert tokens rows. induction lines as [|l lines IH]; intros tokens rows H.
  - intros i line Hi. discriminate.
  - cbn [parse_lines] in H.
    apply Result_bind_ok in H as ([word vec] & Hline & H).
    apply Result_bind_ok in H as ([ts rs] & Hrest & H).
    injection H as <- <-.
    intros [|i] line Hi.
    + injection Hi as <-.
      apply parse_line_ok in Hline as (rest & Hs & ->). eauto.
    + exact (IH _ _ Hrest i line Hi).
Qed.

(** What a successful run of [load] went through. *)
Lemma load_run_inv foldername root (w w' : World F) self :
  load foldername root w = (Ok self, w') →
  ∃ hyper content tokens rows arr,
    fs w !! os_path_join (save_folder root foldername) [JSON_FILENAME]
      = Some (JsonFile hyper)
    ∧ fs w !! os_path_join (save_folder root foldername) [EMBED_FILENAME]
      = Some (TextFile content)
    ∧ read_vectors content = Ok (tokens, rows)
    ∧ NoDup tokens
    ∧ np_array rows = Ok arr
    ∧ Fasttext_init_kw (MkVocab tokens) arr hyper = Ok self.
Proof.
  intros H. unfold load in H. io_steps H.
  repeat match goal with
  | Hi : lift _ _ = (Ok _, _) |- _ => apply lift_ok in Hi as [Hi ->]
  end.
  match goal with
  | Hi : assert_files _ _ _ = (Ok _, _) |- _ =>
      apply keeps_files_assert in Hi as Hfs0
  end.
  match goal with
  | Hi : read_json _ _ = (Ok _, _) |- _ =>
      apply read_json_ok in Hi as [Hjson Hfs1]
  end.
  match goal with
  | Hi : read_text _ _ = (Ok _, _) |- _ =>
      apply read_text_ok in Hi as [Htext _]
  end.
  rewrite Hfs1 in Htext. rewrite Hfs0 in Hjson, Htext.
  match goal with
  | Hv' : Vocab_from_list _ _ _ = Ok ?v |- _ =>
      apply Vocab_from_list_ok in Hv' as [Htok Hnd];
      destruct v as [toks]; cbn [vocab_tokens] in Htok, Hnd;
      simpl in Htok; subst toks
  end.
  match goal with
  | Hr : read_vectors ?c = Ok (?t, ?r), Ha : np_array ?r = Ok ?a,
    Hj : _ = Some (JsonFile ?h) |- _ =>
      exists h, c, t, r, a
  end.
  repeat split; assumption.
Qed.

Lemma Fasttext_init_kw_fields vocab (arr : ndarray F) hyper self :
  Fasttext_init_kw vocab arr hyper = Ok self →
  hyper !! txt "vocab" = None ∧ hyper !! txt "init_embed" = None
  ∧ _word_vocab self = vocab ∧ embed self = arr
  ∧ shape arr = vocab_size self :: _embed_dim self :: drop 2 (shape arr)
  ∧ requires_grad self = default (JBool true) (hyper !! txt "requires_grad")
  ∧ dropout_p self = default (JNum (1 # 2)) (hyper !! txt "dropout")
  ∧ train_state self = default (JBool true) (hyper !! txt "train_state")
  ∧ kwargs self
    = delete (txt "train_state")
        (delete (txt "dropout") (delete (txt "requires_grad") hyper)).
Proof.
  unfold Fasttext_init_kw. case_bool_decide as Hk; [discriminate|].
  intros H. apply Fasttext_init_fields in H as (? & ? & ? & ? & ? & ? & ?).
  repeat split; try assumption.
  - destruct (hyper !! txt "vocab") eqn:E; [|reflexivity].
    exfalso. apply Hk. left. eauto.
  - destruct (hyper !! txt "init_embed") eqn:E; [|reflexivity].
    exfalso. apply Hk. right. eauto.
Qed.

(** X4: an instance [load] returns satisfies the invariant of the data
    model; it has one row and one token for each line of the vector file
    after the first, at least one, and no token twice. *)
Theorem load_well_formed foldername root (w w' : World F) self :
  load foldername root w = (Ok self, w') →
  ∃ content,
    fs w !! os_path_join (save_folder root foldername) [EMBED_FILENAME]
      = Some (TextFile content)
    ∧ well_formed self
    ∧ vocab_size self
      = length (islice1 (readlines (universal_newlines content)))
    ∧ 1 ≤ vocab_size self
    ∧ NoDup (vocab_keys (get_word_vocab self)).
Proof.
  intros H.
  apply load_run_inv in H
    as (hyper & c & t & r & arr & _ & Hfile & Hread & Hnd & Harr & Hinit).
  exists c. split; [exact Hfile|].
  apply Fasttext_init_kw_fields in Hinit
    as (_ & _ & Hv & He & Hsh & _).
  unfold read_vectors in Hread.
  apply parse_lines_length in Hread as [Ht Hr].
  destruct r as [|r0 rs].
  { injection Harr as <-. discriminate Hsh. }
  apply np_array_ok in Harr as (d & Hshape & Hdata & Hu); [|discriminate].
  rewrite Hshape in Hsh. injection Hsh as Hn Hd.
  unfold well_formed, vocab_keys, get_word_vocab.
  rewrite Hv, He, Hshape, Hdata, (length_concat_uniform _ d Hu).
  cbn [vocab_tokens]. rewrite <- Hn, <- Hd, Ht, <- Hr.
  repeat split; auto. simpl. lia.
Qed.

(** X5: in an instance [load] returns, the line of the vector file at
    position [i] after the header splits into a word and a remainder, the
    word has the id [i], and the row [i] of the table is what the numpy
    reader makes of the remainder. *)
Theorem load_rows_follow_lines foldername root (w w' : World F) self :
  load foldername root w = (Ok self, w') →
  ∃ content,
    fs w !! os_path_join (save_folder root foldername) [EMBED_FILENAME]
      = Some (TextFile content)
    ∧ ∀ i line,
        islice1 (readlines (universal_newlines content)) !! i = Some line →
        ∃ word rest,
          split_maxsplit1 line = [word; rest]
          ∧ token_to_id (get_word_vocab self) word = Some i
          ∧ row_of (embed self) i = np_fromstring rest.
Proof.
  intros H.
  apply load_run_inv in H
    as (hyper & c & t & r & arr & _ & Hfile & Hread & Hnd & Harr & Hinit).
  exists c. split; [exact Hfile|].
  apply Fasttext_init_kw_fields in Hinit
    as (_ & _ & Hv & He & Hsh & _).
  intros i line Hi.
  destruct (parse_lines_lookup _ _ _ Hread i line Hi)
    as (word & rest & Hs & Htok & Hrow).
  exists word, rest. split; [exact Hs|].
  unfold token_to_id, get_word_vocab. rewrite Hv, He. cbn [vocab_tokens].
  split; [apply index_of_lookup; assumption|].
  apply np_array_ok in Harr as (d & Hshape & Hdata & Hu);
    [|intros ->; discriminate].
  destruct arr as [sh dt]. cbn [shape data] in *. subst sh dt.
  apply row_of_concat; assumption.
Qed.

(** X6: the instance [load] returns takes [requires_grad], [dropout] and
    [train_state] from the configuration file, each with the default of
    [__init__] when the file does not hold the key; the other keys of the
    file become its extra options, and the file names neither [vocab] nor
    [init_embed]. *)
Theorem load_hyperparameters foldername root (w w' : World F) self :
  load foldername root w = (Ok self, w') →
  ∃ hyper,
    fs w !! os_path_join (save_folder root foldername) [JSON_FILENAME]
      = Some (JsonFile hyper)
    ∧ hyper !! txt "vocab" = None ∧ hyper !! txt "init_embed" = None
    ∧ requires_grad self = default (JBool true) (hyper !! txt "requires_grad")
    ∧ dropout_p self = default (JNum (1 # 2)) (hyper !! txt "dropout")
    ∧ train_state self = default (JBool true) (hyper !! txt "train_state")
    ∧ kwargs self
      = delete (txt "train_state")
          (delete (txt "dropout") (delete (txt "requires_grad") hyper)).
Proof.
  intros H.
  apply load_run_inv in H
    as (hyper & c & t & r & arr & Hjson & _ & _ & _ & _ & Hinit).
  exists hyper. split; [exact Hjson|].
  apply Fasttext_init_kw_fields in Hinit. tauto.
Qed.

(** *** What [save] leaves behind *)

(** A run of [save], whatever its outcome. *)
Lemma save_outcome (self : Fasttext F) foldername root (w : World F) :
  ∃ log,
    save self foldername root w
    = (save_result self,
       MkWorld
         (<[os_path_join (save_folder root foldername) [EMBED_FILENAME] :=
              TextFile (saved_vector_text self)]>
            (<[os_path_join (save_folder root foldername) [JSON_FILENAME] :=
                 JsonFile (hyper_of self)]> (fs w)))
         log (np_random w)).
Proof.
  unfold save, save_result, saved_vector_text.
  destruct (save_lines _ _ _) as [body [e|]]; eexists; reflexivity.
Qed.

(** X7: whether [save] ends well or raises in its loop, it leaves the
    configuration file and a vector file in the folder and changes no other
    file. *)
Theorem save_writes_two_files (self : Fasttext F) foldername root
    (w w' : World F) r :
  save self foldername root w = (r, w') →
  fs w' !! os_path_join (save_folder root foldername) [JSON_FILENAME]
    = Some (JsonFile (hyper_of self))
  ∧ (∃ c, fs w' !! os_path_join (save_folder root foldername)
                     [EMBED_FILENAME] = Some (TextFile c))
  ∧ ∀ p, p ≠ os_path_join (save_folder root foldername) [JSON_FILENAME] →
         p ≠ os_path_join (save_folder root foldername) [EMBED_FILENAME] →
         fs w' !! p = fs w !! p.
Proof.
  destruct (save_outcome self foldername root w) as [log ->].
  intros [= _ <-]. cbn [fs]. split; [|split].
  - rewrite lookup_insert_ne by apply saved_paths_distinct.
    apply lookup_insert_eq.
  - eexists. apply lookup_insert_eq.
  - intros p Hj He.
    rewrite lookup_insert_ne by (intros E; apply He; symmetry; exact E).
    rewrite lookup_insert_ne by (intros E; apply Hj; symmetry; exact E).
    reflexivity.
Qed.

(** X8: the configuration [save] writes holds the dropout, the trainable
    flag and the training flag of the instance under the keys [dropout],
    [requires_grad] and [train_state], also when the extra options have an
    entry of that name, and every other extra option as it is. *)
Theorem save_configuration (self : Fasttext F) foldername root
    (w w' : World F) r :
  save self foldername root w = (r, w') →
  ∃ blob,
    fs w' !! os_path_join (save_folder root foldername) [JSON_FILENAME]
      = Some (JsonFile blob)
    ∧ blob !! txt "dropout" = Some (dropout_p self)
    ∧ blob !! txt "requires_grad" = Some (requires_grad self)
    ∧ blob !! txt "train_state" = Some (train_state self)
    ∧ ∀ k, k ≠ txt "dropout" → k ≠ txt "requires_grad" →
           k ≠ txt "train_state" → blob !! k = kwargs self !! k.
Proof.
  destruct (save_outcome self foldername root w) as [log ->].
  intros [= _ <-]. cbn [fs]. exists (hyper_of self). split.
  { rewrite lookup_insert_ne by apply saved_paths_distinct.
    apply lookup_insert_eq. }
  unfold hyper_of. repeat split.
  - rewrite !lookup_insert_ne by discriminate. apply lookup_insert_eq.
  - rewrite lookup_insert_ne by discriminate. apply lookup_insert_eq.
  - apply lookup_insert_eq.
  - intros k H1 H2 H3.
    rewrite lookup_insert_ne by (intros E; apply H3; symmetry; exact E).
    rewrite lookup_insert_ne by (intros E; apply H2; symmetry; exact E).
    rewrite lookup_insert_ne by (intros E; apply H1; symmetry; exact E).
    reflexivity.
Qed.

(** X9: saving again to the same folder gives the same outcome and leaves
    the files as the first call left them. *)
Theorem save_twice (self : Fasttext F) foldername root (w w1 : World F) r :
  save self foldername root w = (r, w1) →
  ∃ w2, save self foldername root w1 = (r, w2) ∧ fs w2 = fs w1.
Proof.
  destruct (save_outcome self foldername root w) as [log ->].
  intros [= <- <-].
  match goal with
  | |- ∃ w2, save _ _ _ ?w0 = _ ∧ _ =>
      destruct (save_outcome self foldername root w0) as [log' ->]
  end.
  eexists. split; [reflexivity|]. cbn [fs].
  rewrite (insert_insert_ne _ (os_path_join _ [JSON_FILENAME]))
    by (apply not_eq_sym, saved_paths_distinct).
  rewrite !insert_insert_eq. reflexivity.
Qed.

Lemma save_lines_short (e : ndarray F) pre rest m :
  length pre + length rest ≤ hd 0 (shape e) →
  length rest < m →
  save_lines (pre ++ rest) e (seq (length pre) m)
  = (concat (imap (fun i => vector_line e (length pre + i)) rest),
     Some (IndexError (txt "list index out of range"))).
Proof.
  revert pre m. induction rest as [|tok rest IH]; intros pre m Hn Hm.
  - destruct m as [|m]; [simpl in Hm; lia|].
    cbn [seq save_lines]. unfold save_line.
    rewrite app_nil_r, lookup_ge_None_2 by reflexivity. reflexivity.
  - destruct m as [|m]; [simpl in Hm; lia|].
    cbn [length seq save_lines]. unfold save_line.
    rewrite lookup_app_r by reflexivity.
    rewrite Nat.sub_diag. cbn [lookup list_lookup].
    unfold tensor_row. cbn [length] in Hn, Hm. rewrite decide_True by lia.
    cbn [mbind Result_bind].
    specialize (IH (pre ++ [tok]) m). rewrite length_app in IH. simpl in IH.
    rewrite <- app_assoc in IH. simpl in IH.
    rewrite Nat.add_1_r in IH. rewrite IH by lia.
    cbn [imap concat]. rewrite Nat.add_0_r.
    rewrite (imap_ext ((fun i => vector_line e (length pre + i)) ∘ S)
               (fun i => vector_line e (S (length pre) + i)) rest).
    + reflexivity.
    + intros i x _. simpl. f_equal. lia.
Qed.

(** X10: when the vocabulary has fewer tokens than the table has rows,
    [save] raises an [IndexError] at the first row without a token; the
    vector file then holds the placeholder of 30 spaces, not the header, and
    the lines of the tokens there are. *)
Theorem save_stops_at_missing_token (self : Fasttext F) foldername root
    (w : World F) :
  hd 0 (shape (embed self)) = vocab_size self →
  length (vocab_keys (get_word_vocab self)) < vocab_size self →
  ∃ w',
    save self foldername root w
    = (Raise (IndexError (txt "list index out of range")), w')
    ∧ fs w' !! os_path_join (save_folder root foldername) [EMBED_FILENAME]
      = Some (TextFile
          (replicate 30 SP ++ [NL]
             ++ concat (imap (vector_line (embed self))
                          (vocab_keys (get_word_vocab self))))).
Proof.
  intros Hrows Hshort.
  pose proof (save_lines_short (embed self) []
                (vocab_keys (get_word_vocab self)) (vocab_size self)) as Hl.
  simpl in Hl. specialize (Hl ltac:(lia) Hshort).
  destruct (save_outcome self foldername root w) as [log Hs].
  unfold save_result, saved_vector_text in Hs. rewrite Hl in Hs.
  cbn [snd] in Hs. eexists. split; [exact Hs|].
  cbn [fs]. rewrite lookup_insert_eq. unfold placeholder.
  rewrite <- app_assoc. reflexivity.
Qed.

(** X11: when [save] and then [load] of the same folder succeed, the loaded
    instance has the trainable flag, the dropout and the training flag of the
    saved one, and the same extra options under every other key. *)
Theorem save_load_hyperparameters (self self' : Fasttext F) foldername root
    (w w1 w2 : World F) :
  save self foldername root w = (Ok tt, w1) →
  load foldername root w1 = (Ok self', w2) →
  requires_grad self' = requires_grad self
  ∧ dropout_p self' = dropout_p self
  ∧ train_state self' = train_state self
  ∧ ∀ k, k ≠ txt "dropout" → k ≠ txt "requires_grad" →
         k ≠ txt "train_state" → kwargs self' !! k = kwargs self !! k.
Proof.
  intros Hsave Hload.
  destruct (save_outcome self foldername root w) as [log Hs].
  rewrite Hs in Hsave. injection Hsave as _ <-.
  apply load_run_inv in Hload
    as (hyper & c & t & r & arr & Hjson & _ & _ & _ & _ & Hinit).
  cbn [fs] in Hjson.
  rewrite lookup_insert_ne in Hjson by apply saved_paths_distinct.
  rewrite lookup_insert_eq in Hjson. injection Hjson as <-.
  apply Fasttext_init_kw_fields in Hinit
    as (_ & _ & _ & _ & _ & -> & -> & -> & ->).
  unfold hyper_of. repeat split.
  - rewrite lookup_insert_ne by discriminate. rewrite lookup_insert_eq.
    reflexivity.
  - rewrite !lookup_insert_ne by discriminate. rewrite lookup_insert_eq.
    reflexivity.
  - rewrite lookup_insert_eq. reflexivity.
  - intros k H1 H2 H3.
    rewrite lookup_delete_ne by (intros E; apply H3; symmetry; exact E).
    rewrite lookup_delete_ne by (intros E; apply H1; symmetry; exact E).
    rewrite lookup_delete_ne by (intros E; apply H2; symmetry; exact E).
    rewrite lookup_insert_ne by (intros E; apply H3; symmetry; exact E).
    rewrite lookup_insert_ne by (intros E; apply H2; symmetry; exact E).
    rewrite lookup_insert_ne by (intros E; apply H1; symmetry; exact E).
    reflexivity.
Qed.

(** *** What the parser reads and what [from_pretrained] refuses *)

Lemma universal_newlines_line h body :
  Forall line_char h →
  universal_newlines (h ++ NL :: body) = h ++ NL :: universal_newlines body.
Proof.
  induction 1 as [|c h [_ Hc] _ IH]; simpl.
  - reflexivity.
  - rewrite decide_False by exact Hc. rewrite IH. reflexivity.
Qed.

Lemma line_char_no_newline h : Forall line_char h → NL ∉ h.
Proof.
  intros Hh Hin. apply (proj1 (Forall_forall _ _) Hh) in Hin as [Hn _].
  apply Hn. reflexivity.
Qed.

(** X12: the first line of a vector file is not read: two files that differ
    in their first line only are parsed to the same tokens and rows, or
    refused with the same error. *)
Theorem header_line_is_skipped (h1 h2 body : text) :
  Forall line_char h1 → Forall line_char h2 →
  read_vectors (F := F) (h1 ++ NL :: body)
  = read_vectors (h2 ++ NL :: body).
Proof.
  intros H1 H2. unfold read_vectors.
  rewrite !universal_newlines_line by assumption.
  rewrite !readlines_line by (apply line_char_no_newline; assumption).
  reflexivity.
Qed.

Lemma lstrip_head sp s c s' : lstrip sp s = c :: s' → sp c = false.
Proof.
  induction s as [|a s IH]; simpl; [discriminate|].
  destruct (sp a) eqn:E; [exact IH|]. intros [= <- _]. exact E.
Qed.

Lemma span_word_no_sep sp s w r :
  span_word sp s = (w, r) → Forall (fun c => sp c = false) w.
Proof.
  revert w r. induction s as [|a s IH]; simpl; intros w r.
  - intros [= <- _]. constructor.
  - destruct (sp a) eqn:E.
    + intros [= <- _]. constructor.
    + destruct (span_word sp s) as [w' r'] eqn:E'. intros [= <- _].
      constructor; [exact E | eapply IH; reflexivity].
Qed.

Lemma split_maxsplit1_word line word rest :
  split_maxsplit1 line = word :: rest → clean word.
Proof.
  unfold split_maxsplit1.
  destruct (lstrip py_isspace line) as [|c s] eqn:E; [discriminate|].
  pose proof (lstrip_head _ _ _ _ E) as Hc.
  destruct (span_word py_isspace (c :: s)) as [w r] eqn:Es.
  pose proof (span_word_no_sep _ _ _ _ Es) as Hw.
  simpl in Es. rewrite Hc in Es.
  destruct (span_word py_isspace s) as [w' r']. injection Es as <- <-.
  intros Hl. assert (word = c :: w') as ->.
  { destruct (lstrip py_isspace r'); injection Hl as <-; reflexivity. }
  split; [discriminate | exact Hw].
Qed.

Lemma parse_lines_clean (lines : list text) tokens (rows : list (list F)) :
  parse_lines lines = Ok (tokens, rows) → Forall clean tokens.
Proof.
  revert tokens rows. induction lines as [|l lines IH]; intros tokens rows H.
  - injection H as <- <-. constructor.
  - cbn [parse_lines] in H.
    apply Result_bind_ok in H as ([word vec] & Hline & H).
    apply Result_bind_ok in H as ([ts rs] & Hrest & H).
    injection H as <- <-. constructor; [|eapply IH; exact Hrest].
    apply parse_line_ok in Hline as (rest & Hs & _).
    eapply split_maxsplit1_word. exact Hs.
Qed.

(** X13: every token the parser returns is not empty and holds no
    whitespace. *)
Theorem parsed_tokens_are_clean content tokens (rows : list (list F)) :
  read_vectors content = Ok (tokens, rows) →
  Forall clean tokens.
Proof. unfold read_vectors. apply parse_lines_clean. Qed.

(** X14: a name other than ["1M"] and ["1M-subword"] is refused with a
    message that ends in the name, whatever the dimension is; with one of the
    two names, a dimension other than 300 is refused with a message that
    ends in the dimension.  The world is as it was before the call. *)
Theorem from_pretrained_refusal_messages name dims root special_tokens
    special_first (w : World F) :
  (name ≠ txt "1M" → name ≠ txt "1M-subword" →
   from_pretrained name dims root special_tokens special_first w
   = (Raise (ValueError
        (txt "The argument 'name' must in dict_keys(['1M', '1M-subword']), but got "
           ++ name ++ txt ".")), w))
  ∧ (name = txt "1M" ∨ name = txt "1M-subword" → dims ≠ 300%Z →
     from_pretrained name dims root special_tokens special_first w
     = (Raise (ValueError
          (txt "The argument 'dims' must in [300], but got "
             ++ str_Z dims ++ txt ".")), w)).
Proof.
  split.
  - intros H1 H2. unfold from_pretrained, check_arguments.
    assert (Hn : urls !! name = None).
    { unfold urls. rewrite lookup_insert_ne by congruence.
      apply lookup_singleton_ne. congruence. }
    rewrite bool_decide_eq_true_2 by exact Hn. reflexivity.
  - intros Hname Hd. unfold from_pretrained, check_arguments.
    assert (Hn : urls !! name ≠ None).
    { unfold urls. destruct Hname as [-> | ->].
      - rewrite lookup_insert_eq. discriminate.
      - rewrite lookup_insert_ne by discriminate.
        rewrite lookup_singleton_eq. discriminate. }
    rewrite bool_decide_eq_false_2 by exact Hn.
    rewrite bool_decide_eq_false_2.
    + reflexivity.
    + unfold dims_supported. rewrite list_elem_of_singleton. exact Hd.
Qed.

(** *** Looking up what [from_pretrained] loaded *)

Lemma from_pretrained_dropout name dims root special_tokens special_first
    (w w' : World F) self vocab :
  from_pretrained name dims root special_tokens special_first w
    = (Ok (self, vocab), w') →
  dropout_p self = JNum (1 # 2).
Proof.
  intros H. unfold from_pretrained in H. io_steps H.
  injection H as <- <- <-.
  match goal with
  | Hi : lift (Fasttext_init _ _ _ _ _ _) _ = (Ok _, _) |- _ =>
      apply lift_ok in Hi as [Hi _];
      apply Fasttext_init_fields in Hi; tauto
  end.
Qed.

(** The table of an instance [from_pretrained] returns. *)
Lemma from_pretrained_table name dims root special_tokens special_first
    (w w' : World F) self vocab :
  from_pretrained name dims root special_tokens special_first w
    = (Ok (self, vocab), w') →
  ∃ content w1 tokens rows all_rows,
    fetch_vectors name dims root w = (Ok content, w1)
    ∧ read_vectors content = Ok (tokens, rows)
    ∧ all_rows = (if special_first
                  then np_random w1 dims :: np_zeros dims :: rows
                  else rows ++ [np_random w1 dims; np_zeros dims])
    ∧ embed self = NDArray [length all_rows; 300] (concat all_rows)
    ∧ Forall (fun r => length r = 300) all_rows
    ∧ vocab_tokens vocab
      = (if special_first
         then [special_tokens.1; special_tokens.2] ++ tokens
         else tokens ++ [special_tokens.1; special_tokens.2])
    ∧ NoDup (vocab_tokens vocab)
    ∧ dropout_p self = JNum (1 # 2)
    ∧ _embed_dim self = 300.
Proof.
  intros H.
  pose proof (from_pretrained_run_inv _ _ _ _ _ _ _ _ _ H)
    as (_ & _ & _ & _ & Hd & _ & _ & _ & _ & _ & _ & Hsh).
  apply from_pretrained_fetch in H
    as (c & w1 & t & r & Hfetch & Hread & Harr & Htok & Hnd & _ & Hp).
  exists c, w1, t, r. eexists.
  split; [exact Hfetch|]. split; [exact Hread|]. split; [reflexivity|].
  apply np_array_ok in Harr as (d & Hshape & Hdata & Hu);
    [|destruct special_first, r; discriminate].
  assert (d = 300) as ->.
  { change 300 with (length (np_zeros (F := F) 300)). rewrite <- Hd.
    symmetry. eapply (proj1 (Forall_forall _ _) Hu).
    destruct special_first.
    - right. left.
    - apply elem_of_app. right. right. left. }
  rewrite Hshape in Hsh. injection Hsh as Hn Hdim.
  destruct (embed self) as [sh dt]. cbn [shape data] in *. subst sh dt.
  repeat split; auto.
Qed.

(** X15: in an instance [from_pretrained] returns, looking up the id of a
    token of the file (of the text the first part of the method read)
    gives, before the dropout layer with dropout 0.5 is applied, the array
    of shape [(1, 300)] that holds the row parsed from the line of that
    token. *)
Theorem from_pretrained_then_construct name dims root special_tokens
    special_first (w w' : World F) self vocab :
  from_pretrained name dims root special_tokens special_first w
    = (Ok (self, vocab), w') →
  ∃ content w1 tokens (rows : list (list F)),
    fetch_vectors name dims root w = (Ok content, w1)
    ∧ read_vectors content = Ok (tokens, rows)
    ∧ ∀ i tok r, tokens !! i = Some tok → rows !! i = Some r →
        ∃ id, token_to_id vocab tok = Some id
              ∧ construct self (NDArray [1] [Z.of_nat id])
                = Ok (nn_dropout (JNum (1 # 2)) (NDArray [1; 300] r)).
Proof.
  intros H.
  apply from_pretrained_table in H
    as (c & w1 & t & r & all & Hfetch & Hread & Hall & He & Hu & Htok & Hnd
        & Hp & Hd).
  exists c, w1, t, r. split; [exact Hfetch|]. split; [exact Hread|].
  intros i tok r0 Hi Hr.
  set (id := if special_first then 2 + i else i).
  assert (Hid : vocab_tokens vocab !! id = Some tok).
  { rewrite Htok. subst id. destruct special_first; [exact Hi|].
    apply lookup_app_l_Some. exact Hi. }
  assert (Hrow : all !! id = Some r0).
  { rewrite Hall. subst id. destruct special_first; [exact Hr|].
    apply lookup_app_l_Some. exact Hr. }
  exists id. split; [apply index_of_lookup; assumption|].
  assert (Hlt : id < length all) by (eapply lookup_lt_Some; exact Hrow).
  assert (Hr0 : length r0 = 300)
    by (eapply (proj1 (Forall_lookup _ _) Hu); exact Hrow).
  unfold construct, construct_gather, ops_gather. rewrite Hp, He, Hd.
  rewrite gather_rows_ok by (repeat constructor; cbn [shape hd]; lia).
  cbn [map concat mbind Result_bind data shape]. rewrite app_nil_r.
  rewrite Nat2Z.id, (row_of_concat all _ 300 id r0 Hu Hrow).
  unfold ops_reshape. cbn [data length tl app].
  rewrite decide_True by (simpl; lia). reflexivity.
Qed.

(** *** A table without columns *)

(** A run of [load] that the parser stops. *)
Lemma load_run_refused foldername root (w : World F) hyper content e :
  fs w !! os_path_join (save_folder root foldername) [JSON_FILENAME]
    = Some (JsonFile hyper) →
  fs w !! os_path_join (save_folder root foldername) [EMBED_FILENAME]
    = Some (TextFile content) →
  read_vectors (F := F) content = Raise e →
  ∃ w', load foldername root w = (Raise e, w').
Proof.
  intros Hj He Hread. unfold load.
  destruct (assert_files_run (save_folder root foldername) w)
    as [log0 H0]; [rewrite Hj; eauto | rewrite He; eauto |].
  rewrite (IO_bind_run _ _ _ _ _ H0).
  destruct (read_json_run _ hyper (MkWorld (fs w) log0 (np_random w)) Hj)
    as [log1 H1].
  rewrite (IO_bind_run _ _ _ _ _ H1).
  destruct (read_text_run _ content (MkWorld (fs w) log1 (np_random w)) He)
    as [log2 H2].
  rewrite (IO_bind_run _ _ _ _ _ H2).
  unfold lift, mbind, IO_bind. rewrite Hread. eexists. reflexivity.
Qed.

Lemma split_maxsplit1_token_only tok :
  clean tok → split_maxsplit1 (tok ++ [SP; NL]) = [tok].
Proof.
  intros [Hne Htok]. unfold split_maxsplit1.
  destruct tok as [|t tok]; [contradiction|].
  inversion Htok as [|? ? Ht Htok']; subst.
  change ((t :: tok) ++ [SP; NL]) with (t :: (tok ++ [SP; NL])).
  rewrite lstrip_word by exact Ht.
  change (t :: (tok ++ [SP; NL])) with ((t :: tok) ++ SP :: [NL]).
  rewrite (span_word_app py_isspace (t :: tok) SP [NL])
    by (auto; reflexivity).
  reflexivity.
Qed.

(** X16: a well-formed instance whose table has rows and no column, with
    tokens that are not empty and hold no whitespace, is saved without
    error, and [load] of the folder then raises a [ValueError]: each line of
    the vector file holds a token and nothing to unpack as its vector. *)
Theorem save_load_without_columns (self : Fasttext F) foldername root
    (w : World F) :
  well_formed self →
  _embed_dim self = 0 →
  1 ≤ vocab_size self →
  Forall clean (vocab_keys (get_word_vocab self)) →
  length (header_text (vocab_size self) (_embed_dim self)) ≤ 30 →
  ∃ w1,
    save self foldername root w = (Ok tt, w1)
    ∧ ∃ msg w2, load foldername root w1 = (Raise (ValueError msg), w2).
Proof.
  intros (Hshape & Hlen & Hkeys) Hd Hn Hclean Hh.
  pose proof (save_lines_ok (embed self) [] (vocab_keys (get_word_vocab self)))
    as Hl.
  simpl in Hl. rewrite Hshape, Hkeys in Hl. specialize (Hl (le_n _)).
  destruct (save_run self foldername root w _ Hl) as [log Hsave].
  rewrite (overwrite_placeholder _ _ Hh) in Hsave.
  eexists. split; [exact Hsave|].
  assert (Hdata : data (embed self) = []).
  { apply length_zero_iff_nil. rewrite Hlen, Hd. lia. }
  destruct (vocab_keys (get_word_vocab self)) as [|k0 keys] eqn:Ek;
    [simpl in Hkeys; lia|].
  assert (Hline : vector_line (embed self) 0 k0 = k0 ++ [SP; NL]).
  { unfold vector_line, row_of. rewrite Hdata, drop_nil, take_nil.
    reflexivity. }
  assert (Hread : ∃ msg,
            read_vectors (F := F)
              (header_text (vocab_size self) (_embed_dim self)
                 ++ replicate
                      (30 - length (header_text (vocab_size self)
                                      (_embed_dim self))) SP
                 ++ [NL]
                 ++ concat (imap (vector_line (embed self)) (k0 :: keys)))
            = Raise (ValueError msg)).
  { unfold read_vectors. rewrite app_assoc.
    rewrite data_lines_back;
      [| apply header_line_chars
       | apply vector_lines_chars; [exact Hclean | rewrite Hdata; constructor]].
    apply (parse_lines_unsplittable _ (k0 ++ [SP; NL])).
    - cbn [imap]. rewrite Hline. left.
    - rewrite split_maxsplit1_token_only by (inversion Hclean; assumption).
      simpl. lia. }
  destruct Hread as [msg Hread]. exists msg.
  eapply load_run_refused; [| |exact Hread].
  - cbn [fs]. rewrite lookup_insert_ne by apply saved_paths_distinct.
    apply lookup_insert_eq.
  - cbn [fs]. apply lookup_insert_eq.
Qed.

(** *** Files [load] refuses *)

(** A run of [load] that stops when the table is assembled. *)
Lemma load_run_ragged foldername root (w : World F) hyper content tokens
    rows e :
  fs w !! os_path_join (save_folder root foldername) [JSON_FILENAME]
    = Some (JsonFile hyper) →
  fs w !! os_path_join (save_folder root foldername) [EMBED_FILENAME]
    = Some (TextFile content) →
  read_vectors content = Ok (tokens, rows) →
  NoDup tokens →
  np_array rows = Raise e →
  ∃ w', load foldername root w = (Raise e, w').
Proof.
  intros Hj He Hread Hnd Harr. unfold load.
  destruct (assert_files_run (save_folder root foldername) w)
    as [log0 H0]; [rewrite Hj; eauto | rewrite He; eauto |].
  rewrite (IO_bind_run _ _ _ _ _ H0).
  destruct (read_json_run _ hyper (MkWorld (fs w) log0 (np_random w)) Hj)
    as [log1 H1].
  rewrite (IO_bind_run _ _ _ _ _ H1).
  destruct (read_text_run _ content (MkWorld (fs w) log1 (np_random w)) He)
    as [log2 H2].
  rewrite (IO_bind_run _ _ _ _ _ H2).
  unfold lift, mbind, IO_bind. rewrite Hread. unfold Vocab_from_list.
  cbn [app]. rewrite decide_True by exact Hnd. rewrite Harr.
  eexists. reflexivity.
Qed.

(** X17: with both files in the folder, [load] raises a [ValueError] when a
    line of the vector file after the first does not split into a token and
    a remainder, and also when the lines are parsed to distinct tokens and
    to rows that do not all have the length of the first. *)
Theorem load_refuses_malformed_file foldername root (w : World F) hyper
    content :
  fs w !! os_path_join (save_folder root foldername) [JSON_FILENAME]
    = Some (JsonFile hyper) →
  fs w !! os_path_join (save_folder root foldername) [EMBED_FILENAME]
    = Some (TextFile content) →
  (∀ line,
     line ∈ islice1 (readlines (universal_newlines content)) →
     length (split_maxsplit1 line) ≠ 2 →
     ∃ msg w', load foldername root w = (Raise (ValueError msg), w'))
  ∧ (∀ tokens (r r' : list F) rows,
       read_vectors content = Ok (tokens, r :: rows) →
       NoDup tokens →
       r' ∈ rows → length r' ≠ length r →
       ∃ msg w', load foldername root w = (Raise (ValueError msg), w')).
Proof.
  intros Hj He. split.
  - intros line Hin Hbad.
    destruct (parse_lines_unsplittable _ line Hin Hbad)
      as [msg Hread].
    exists msg. eapply load_run_refused; eauto.
  - intros tokens r r' rows Hread Hnd Hin Hne.
    destruct (np_array_ragged r r' rows Hin Hne) as [msg Harr].
    exists msg. eapply load_run_ragged; eauto.
Qed.
End Properties.

(** * The operations on concrete worlds *)

(** C3, evaluated: with the default [special_tokens], for both values of
    [special_first], the row of the table at the id of ["<pad>"] is the row
    drawn from the random generator (sevens in this world) and the row at
    the id of ["<unk>"] is the row of zeros. *)
Theorem from_pretrained_default_special_rows :
  ∀ special_first : bool,
    match pretrained_run special_first with
    | (Ok (self, vocab), _) =>
        ∃ ipad iunk,
          token_to_id vocab (txt "<pad>") = Some ipad
          ∧ token_to_id vocab (txt "<unk>") = Some iunk
          ∧ ipad = (if special_first then 0 else 2)
          ∧ iunk = (if special_first then 1 else 3)
          ∧ row_of (embed self) ipad = replicate 300 7%Z
          ∧ row_of (embed self) iunk = replicate 300 0%Z
    | _ => False
    end.
Proof.
  intros [|]; vm_compute.
  - exists 0, 1. repeat split.
  - exists 2, 3. repeat split.
Qed.

(** C7 fails on the code, in both of its cases.  The header of the first
    file announces two columns, each data line holds one float, and [load]
    returns a table of one column.  In the second file the second field of
    a line is ["2.0x"], which is no number (the reader reads ["2.0"] and
    leaves the ["x"]), and [load] returns the table of the numbers read. *)
Lemma load_accepts_malformed_lines :
  header_dims short_rows_text = Some 2
  ∧ Forall (fun l => float_count l = 1)
      (islice1 (readlines (universal_newlines short_rows_text)))
  ∧ match load (txt "m") (txt "/r") world_short_rows with
    | (Ok self, _) =>
        shape (embed self) = [2; 1] ∧ data (embed self) = [1; 3]%Z
    | _ => False
    end
  ∧ fields (txt "cat 1.0 2.0x") = [txt "cat"; txt "1.0"; txt "2.0x"]
  ∧ f32_read (txt "2.0x") = Some (2%Z, 3)
  ∧ match load (txt "m") (txt "/r") world_bad_field with
    | (Ok self, _) =>
        shape (embed self) = [2; 2] ∧ data (embed self) = [1; 2; 3; 4]%Z
    | _ => False
    end.
Proof.
  vm_compute. repeat split. repeat constructor.
Qed.

(** C1 fails on the code: an instance with the one token ["x 7"] and one
    column is saved and loaded, and the loaded instance has two columns and
    the token ["x"]. *)
Lemma save_load_splits_spaced_token :
  well_formed spaced_token_instance
  ∧ vocab_size spaced_token_instance = 1
  ∧ _embed_dim spaced_token_instance = 1
  ∧ match save spaced_token_instance (txt "m") (txt "/r") world_empty with
    | (Ok _, w1) =>
        match load (txt "m") (txt "/r") w1 with
        | (Ok self', _) =>
            _embed_dim self' = 2
            ∧ data (embed self') = [7; 1]%Z
            ∧ vocab_keys (get_word_vocab self') = [txt "x"]
        | _ => False
        end
    | _ => False
    end.
Proof.
  vm_compute. repeat split.
Qed.

(** C8 fails on the code for an instance the constructor accepts: the
    vocabulary has one token and the table two rows, the header text has 3
    characters, and [save] raises an [IndexError] and leaves a vector file
    whose first line is the placeholder of 30 spaces, not the header. *)
Lemma save_without_token_writes_no_header :
  Fasttext_init (MkVocab [txt "cat"]) (NDArray [2; 2] [1; 2; 3; 4]%Z)
    (JBool true) (JNum (1 # 2)) (JBool true) ∅
  = Ok short_vocab_instance
  ∧ length (header_text (vocab_size short_vocab_instance)
              (_embed_dim short_vocab_instance)) = 3
  ∧ match save short_vocab_instance (txt "m") (txt "/r") world_empty with
    | (Raise (IndexError _), w') =>
        fs w' !! saved_embed_path
        = Some (TextFile
            (replicate 30 SP ++ [NL] ++ txt "cat 1.0 2.0" ++ [NL]))
    | _ => False
    end.
Proof.
  vm_compute. repeat split.
Qed.

(** ** The theorems at concrete inputs *)

Lemma pretrained_run_ok special_first :
  is_ok (pretrained_run special_first).1 = true.
Proof. destruct special_first; vm_compute; reflexivity. Qed.

Lemma fetch_pretrained :
  (fetch_vectors (txt "1M") 300 (txt "/r") world_pretrained).1
  = Ok pretrained_text.
Proof. vm_compute. reflexivity. Qed.

Lemma fetch_pretrained_random :
  np_random (fetch_vectors (txt "1M") 300 (txt "/r") world_pretrained).2 300
  = replicate 300 7%Z.
Proof. vm_compute. reflexivity. Qed.

Lemma read_pretrained :
  read_vectors (F := Z) pretrained_text
  = Ok ([txt "cat"; txt "dog"], [replicate 300 1%Z; replicate 300 2%Z]).
Proof. vm_compute. reflexivity. Qed.

(** What the first part of [from_pretrained] reads in the world with the
    unpacked file, and what the parser makes of it. *)
Lemma pretrained_tokens content (w1 : World Z) tokens rows :
  fetch_vectors (txt "1M") 300 (txt "/r") world_pretrained
    = (Ok content, w1) →
  read_vectors content = Ok (tokens, rows) →
  tokens = [txt "cat"; txt "dog"]
  ∧ rows = [replicate 300 1%Z; replicate 300 2%Z]
  ∧ np_random w1 300 = replicate 300 7%Z.
Proof.
  intros Hf Hr.
  pose proof fetch_pretrained as H1. pose proof fetch_pretrained_random as H2.
  rewrite Hf in H1, H2. cbn [fst snd] in H1, H2. injection H1 as ->.
  rewrite read_pretrained in Hr. injection Hr as <- <-. auto.
Qed.

Lemma from_pretrained_validates_witness :
  (∃ msg, from_pretrained (txt "2M") 300 (txt "/r") default_special_tokens
            false world_empty = (Raise (ValueError msg), world_empty))
  ∧ (∃ msg, from_pretrained (txt "1M") 200 (txt "/r") default_special_tokens
            false world_empty = (Raise (ValueError msg), world_empty))
  ∧ check_arguments (txt "1M") 300 = Ok tt.
Proof.
  split; [|split].
  - apply (proj1 (from_pretrained_validates (txt "2M") 300 (txt "/r")
                    default_special_tokens false world_empty)).
    left. vm_compute. reflexivity.
  - apply (proj1 (from_pretrained_validates (txt "1M") 200 (txt "/r")
                    default_special_tokens false world_empty)).
    right. vm_compute. intros H. inversion H; subst.
    match goal with H' : _ ∈ [] |- _ => inversion H' end.
  - apply (proj2 (from_pretrained_validates (txt "1M") 300 (txt "/r")
                    default_special_tokens false world_empty)).
    + vm_compute. eexists. reflexivity.
    + vm_compute. left.
Defined.

Lemma from_pretrained_hyperparameters_witness :
  ∃ self vocab w',
    pretrained_run false = (Ok (self, vocab), w')
    ∧ requires_grad self = JBool true
    ∧ dropout_p self = JNum (1 # 2)
    ∧ train_state self = JBool true
    ∧ kwargs self = ∅.
Proof.
  destruct (pretrained_run false) as [[[self vocab]|e] w'] eqn:E.
  - exists self, vocab, w'. split; [reflexivity|].
    exact (from_pretrained_hyperparameters _ _ _ _ _ _ _ _ _ E).
  - vm_compute in E. discriminate E.
Defined.

Lemma load_asserts_files_witness :
  (∃ w', load (txt "m") (txt "/r") world_empty
         = (Raise (AssertionError
              (txt "fasttext_hyper.json not found in /r/embeddings/Fasttext/save/m.")),
            w')
         ∧ fs w' = fs world_empty)
  ∧ (∃ w', load (txt "m") (txt "/r") world_json_only
         = (Raise (AssertionError
              (txt "fasttext.txt not found in /r/embeddings/Fasttext/save/m.")),
            w')
         ∧ fs w' = fs world_json_only)
  ∧ (∃ w', assert_files (save_folder (txt "/r") (txt "m"))
             [JSON_FILENAME; EMBED_FILENAME] world_short_rows = (Ok tt, w')
         ∧ fs w' = fs world_short_rows).
Proof.
  split; [|split].
  - apply (proj1 (load_asserts_files (txt "m") (txt "/r") world_empty)).
    vm_compute. reflexivity.
  - apply (proj1 (proj2 (load_asserts_files (txt "m") (txt "/r")
                           world_json_only))).
    + vm_compute. eexists. reflexivity.
    + vm_compute. reflexivity.
  - apply (proj2 (proj2 (load_asserts_files (txt "m") (txt "/r")
                           world_short_rows))).
    + vm_compute. eexists. reflexivity.
    + vm_compute. eexists. reflexivity.
Defined.

Lemma from_pretrained_vocabulary_witness :
  ∃ self vocab w',
    pretrained_run true = (Ok (self, vocab), w')
    ∧ get_word_vocab self = vocab
    ∧ length (vocab_keys vocab) = 4
    ∧ token_to_id vocab (txt "<pad>") = Some 0
    ∧ token_to_id vocab (txt "<unk>") = Some 1
    ∧ token_to_id vocab (txt "cat") = Some 2
    ∧ token_to_id vocab (txt "dog") = Some 3.
Proof.
  destruct (pretrained_run true) as [[[self vocab]|e] w'] eqn:E.
  - exists self, vocab, w'. split; [reflexivity|].
    destruct (from_pretrained_vocabulary _ _ _ _ true _ _ _ _ E)
      as (c & w1 & t & r & Hf & Hr & Hself & Hlen & Hpad & Hunk & Hfile).
    destruct (pretrained_tokens _ _ _ _ Hf Hr) as (-> & -> & _).
    split; [exact Hself|]. split; [exact Hlen|].
    split; [exact Hpad|]. split; [exact Hunk|].
    split; [apply (Hfile 0) | apply (Hfile 1)]; reflexivity.
  - pose proof (pretrained_run_ok true) as Hok. rewrite E in Hok.
    discriminate Hok.
Defined.

Lemma construct_out_of_range_witness :
  well_formed small_instance
  ∧ 5%Z ∈ data far_ids
  ∧ ∃ msg, construct small_instance far_ids = Raise (IndexError msg).
Proof.
  assert (Hwf : well_formed small_instance) by (vm_compute; auto).
  assert (Hin : 5%Z ∈ data far_ids) by (right; left).
  split; [exact Hwf|]. split; [exact Hin|].
  apply (construct_out_of_range small_instance far_ids 5 Hwf Hin).
  simpl. lia.
Defined.

Lemma construct_gathers_rows_witness :
  well_formed small_instance
  ∧ well_shaped near_ids
  ∧ ∃ out,
      construct_gather small_instance near_ids = Ok out
      ∧ construct small_instance near_ids
        = Ok (nn_dropout (dropout_p small_instance) out)
      ∧ shape out = [1; 2; 2]
      ∧ well_shaped out
      ∧ ∀ idx i j,
          in_bounds [1; 2] idx →
          at_index near_ids idx = Some i →
          j < 2 →
          at_index out (idx ++ [j])
          = at_index (embed small_instance) [Z.to_nat i; j].
Proof.
  assert (Hwf : well_formed small_instance) by (vm_compute; auto).
  assert (Hws : well_shaped near_ids) by (vm_compute; auto).
  split; [exact Hwf|]. split; [exact Hws|].
  apply (construct_gathers_rows small_instance near_ids Hwf Hws).
  simpl. repeat constructor; lia.
Defined.

Lemma save_vector_file_format_witness :
  well_formed small_instance
  ∧ ∃ w',
      save small_instance (txt "m") (txt "/r") world_empty = (Ok tt, w')
      ∧ fs w' !! saved_embed_path
        = Some (TextFile
            (txt "2 2" ++ replicate 27 SP ++ [NL]
               ++ txt "cat 1.0 2.0" ++ [NL] ++ txt "dog 3.0 4.0" ++ [NL]))
      ∧ NL ∉ txt "2 2".
Proof.
  assert (Hwf : well_formed small_instance) by (vm_compute; auto).
  split; [exact Hwf|].
  destruct (save_vector_file_format small_instance (txt "m") (txt "/r")
              world_empty Hwf) as (w' & Hsave & Hfile & Hnl).
  { vm_compute. lia. }
  exists w'. split; [exact Hsave|]. split; [|exact Hnl].
  assert (Hpath : os_path_join (save_folder (txt "/r") (txt "m"))
                    [EMBED_FILENAME] = saved_embed_path)
    by (vm_compute; reflexivity).
  rewrite Hpath in Hfile. rewrite Hfile. vm_compute. reflexivity.
Defined.

Lemma parser_aborts_on_unsplittable_line_witness :
  txt "dog" ++ [NL]
    ∈ islice1 (readlines (universal_newlines token_only_text))
  ∧ (∃ msg, read_vectors (F := Z) token_only_text = Raise (ValueError msg))
  ∧ (∃ msg, np_array [[1]; [1; 2]]%Z = Raise (ValueError msg))
  ∧ parse_line (F := Z) (txt "cat 1.0 2.0x" ++ [NL])
    = Ok (txt "cat", [1; 2]%Z).
Proof.
  assert (Hin : txt "dog" ++ [NL]
            ∈ islice1 (readlines (universal_newlines token_only_text)))
    by (vm_compute; right; left).
  split; [exact Hin|]. split; [|split].
  - apply (proj1 (parser_aborts_on_unsplittable_line (F := Z))
             token_only_text (txt "dog" ++ [NL]) Hin).
    vm_compute. lia.
  - apply (proj1 (proj2 (proj2 (parser_aborts_on_unsplittable_line (F := Z))))
             [1%Z] [1; 2]%Z [[1; 2]%Z]).
    + left.
    + simpl. lia.
  - rewrite (proj2 (proj2 (proj2 (proj2 (proj2
               (parser_aborts_on_unsplittable_line (F := Z))))))
               (txt "cat 1.0 2.0x" ++ [NL]) (txt "cat")
               (txt "1.0 2.0x" ++ [NL]))
      by (vm_compute; reflexivity).
    vm_compute. reflexivity.
Defined.

Lemma blank_small c : c_isspace c = true → (c <= 32)%N.
Proof.
  unfold c_isspace.
  rewrite !orb_true_iff, !andb_true_iff, !N.leb_le, !N.eqb_eq. lia.
Qed.

Lemma digit_not_blank c : is_digit c = true → c_isspace c = false.
Proof.
  unfold is_digit. rewrite andb_true_iff, !N.leb_le. intros [H1 H2].
  destruct (c_isspace c) eqn:E; [|reflexivity].
  apply blank_small in E. lia.
Qed.

Lemma blank_not_digit c : c_isspace c = true → is_digit c = false.
Proof.
  intros H. destruct (is_digit c) eqn:E; [|reflexivity].
  apply digit_not_blank in E. congruence.
Qed.

(** The reader of the integral floats on a numeral as [str] writes it,
    followed by a blank. *)
Lemma read_integral_point_zero (ds : text) n c rest :
  ds ≠ [] → Forall (fun d => is_digit d = true) ds →
  digits_value 0 ds = Some n → c_isspace c = true →
  read_integral (ds ++ 46 :: 48 :: c :: rest)%N
  = Some (Z.of_nat n, length ds + 2).
Proof.
  intros Hne Hds Hn Hc. unfold read_integral.
  destruct ds as [|d ds]; [contradiction|].
  inversion Hds as [|? ? Hd Hds']; subst.
  pose proof (blank_small c Hc) as Hc32.
  assert (Hd48 : (48 <= d)%N)
    by (unfold is_digit in Hd; rewrite andb_true_iff, !N.leb_le in Hd; lia).
  rewrite <- app_comm_cons.
  rewrite lstrip_word by (apply digit_not_blank; exact Hd).
  rewrite (proj2 (N.eqb_neq d 45)) by lia.
  rewrite (proj2 (N.eqb_neq d 43)) by lia.
  rewrite app_comm_cons. unfold span_digits.
  rewrite (span_word_app (fun c => negb (is_digit c)) (d :: ds) 46%N);
    [| eapply Forall_impl; [exact Hds|];
       intros x Hx; simpl; rewrite Hx; reflexivity
     | reflexivity].
  change ((46 =? 46)%N) with true. cbv iota.
  cbn [span_word]. change (is_digit 48%N) with true. cbn [negb].
  rewrite (blank_not_digit c Hc). cbn [negb app starts_exponent].
  rewrite (proj2 (N.eqb_neq c 101)) by lia.
  rewrite (proj2 (N.eqb_neq c 69)) by lia.
  cbn [orb forallb]. change ((48 =? 48)%N) with true. cbn [andb].
  rewrite Hn. cbn [mbind option_bind].
  f_equal. f_equal. cbn [length]. rewrite length_app. cbn [length]. lia.
Qed.

Lemma digit_no_space c : is_digit c = true → py_isspace c = false.
Proof.
  unfold is_digit. rewrite andb_true_iff, !N.leb_le. intros [H1 H2].
  destruct (py_isspace c) eqn:E; [|reflexivity]. exfalso.
  unfold py_isspace in E.
  rewrite !orb_true_iff, !andb_true_iff, !N.leb_le, !N.eqb_eq in E. lia.
Qed.

(** A non-negative value whose text is a run of digits and [".0"] is read
    back from that text. *)
Lemma integral_reads_back (z : Z) (ds : text) n :
  str_Z z = ds → ds ≠ [] → Forall (fun d => is_digit d = true) ds →
  digits_value 0 ds = Some n → z = Z.of_nat n →
  reads_back z z.
Proof.
  intros Hstr Hne Hds Hn ->. split.
  - cbn [f32_str Float32_integral]. rewrite Hstr. split.
    + destruct ds; [contradiction|discriminate].
    + apply Forall_app. split.
      * eapply Forall_impl; [exact Hds|]. apply digit_no_space.
      * repeat constructor.
  - intros c rest Hc. cbn [f32_str f32_read Float32_integral].
    rewrite Hstr, <- app_assoc, length_app.
    apply (read_integral_point_zero ds n c rest); assumption.
Qed.

Lemma small_values_read_back :
  Forall2 (reads_back (F := Z)) [1; 2; 3; 4]%Z [1; 2; 3; 4]%Z.
Proof.
  constructor;
    [apply (integral_reads_back 1 (txt "1") 1);
       [reflexivity | discriminate | repeat constructor | reflexivity
        | reflexivity]|].
  constructor;
    [apply (integral_reads_back 2 (txt "2") 2);
       [reflexivity | discriminate | repeat constructor | reflexivity
        | reflexivity]|].
  constructor;
    [apply (integral_reads_back 3 (txt "3") 3);
       [reflexivity | discriminate | repeat constructor | reflexivity
        | reflexivity]|].
  constructor;
    [apply (integral_reads_back 4 (txt "4") 4);
       [reflexivity | discriminate | repeat constructor | reflexivity
        | reflexivity]|].
  constructor.
Qed.

Lemma save_load_roundtrip_witness :
  well_formed small_instance
  ∧ init_accepts small_instance
  ∧ NoDup (vocab_keys (get_word_vocab small_instance))
  ∧ Forall clean (vocab_keys (get_word_vocab small_instance))
  ∧ Forall2 reads_back (data (embed small_instance)) [1; 2; 3; 4]%Z
  ∧ ∃ w1 self' w2,
      save small_instance (txt "m") (txt "/r") world_empty = (Ok tt, w1)
      ∧ load (txt "m") (txt "/r") w1 = (Ok self', w2)
      ∧ vocab_size self' = 2
      ∧ _embed_dim self' = 2
      ∧ shape (embed self') = [2; 2]
      ∧ data (embed self') = [1; 2; 3; 4]%Z
      ∧ vocab_keys (get_word_vocab self') = [txt "cat"; txt "dog"].
Proof.
  assert (Hwf : well_formed small_instance) by (vm_compute; auto).
  assert (Hacc : init_accepts small_instance) by (vm_compute; auto).
  assert (Hnd : NoDup (vocab_keys (get_word_vocab small_instance)))
    by (apply (bool_decide_unpack _); vm_compute; exact I).
  assert (Hcl : Forall clean (vocab_keys (get_word_vocab small_instance)))
    by (apply (bool_decide_unpack _); vm_compute; exact I).
  assert (Hrb : Forall2 reads_back (data (embed small_instance))
                  [1; 2; 3; 4]%Z).
  { exact small_values_read_back. }
  repeat (split; [assumption|]).
  apply (save_load_roundtrip small_instance (txt "m") (txt "/r") world_empty
           [1; 2; 3; 4]%Z Hwf Hacc); try assumption.
  - simpl. lia.
  - simpl. lia.
  - vm_compute. lia.
Defined.

(** ** Further properties at concrete inputs *)

Lemma load_short_rows_ok :
  is_ok (load (txt "m") (txt "/r") world_short_rows).1 = true.
Proof. vm_compute. reflexivity. Qed.

Lemma save_small_ok :
  (save small_instance (txt "m") (txt "/r") world_empty).1 = Ok tt.
Proof. vm_compute. reflexivity. Qed.

Lemma load_saved_small_ok :
  is_ok (load (txt "m") (txt "/r")
           (save small_instance (txt "m") (txt "/r") world_empty).2).1
  = true.
Proof. vm_compute. reflexivity. Qed.

Lemma load_keeps_files_witness :
  ∃ r w', load (txt "m") (txt "/r") world_token_only = (r, w')
          ∧ fs w' = fs world_token_only.
Proof.
  destruct (load (txt "m") (txt "/r") world_token_only) as [r w'] eqn:E.
  exists r, w'. split; [reflexivity|].
  exact (load_keeps_files (txt "m") (txt "/r") world_token_only w' r E).
Defined.

Lemma from_pretrained_well_formed_witness :
  ∃ self vocab w',
    pretrained_run false = (Ok (self, vocab), w')
    ∧ ∃ content tokens (rows : list (list Z)),
        fs w' !! os_path_join
                   (os_path_join (txt "/r") [txt "embeddings"; txt "Fasttext"])
                   [txt "wiki-news-" ++ str_Z 300 ++ txt "d-" ++ txt "1M"
                      ++ txt ".vec"]
          = Some (TextFile content)
        ∧ read_vectors content = Ok (tokens, rows)
        ∧ well_formed self
        ∧ vocab_size self = length tokens + 2
        ∧ _embed_dim self = 300
        ∧ Forall (fun r => length r = 300) rows.
Proof.
  destruct (pretrained_run false) as [[[self vocab]|e] w'] eqn:E.
  - exists self, vocab, w'. split; [reflexivity|].
    exact (from_pretrained_well_formed _ _ _ _ _ _ _ _ _ E).
  - pose proof (pretrained_run_ok false) as Hok. rewrite E in Hok.
    discriminate Hok.
Defined.

Lemma from_pretrained_rows_follow_ids_witness :
  ∃ self vocab w',
    pretrained_run true = (Ok (self, vocab), w')
    ∧ (∃ id, token_to_id vocab (txt "cat") = Some id
             ∧ row_of (embed self) id = replicate 300 1%Z)
    ∧ (∃ id, token_to_id vocab (txt "dog") = Some id
             ∧ row_of (embed self) id = replicate 300 2%Z)
    ∧ (∃ id, token_to_id vocab (txt "<pad>") = Some id
             ∧ row_of (embed self) id = replicate 300 7%Z)
    ∧ (∃ id, token_to_id vocab (txt "<unk>") = Some id
             ∧ row_of (embed self) id = replicate 300 0%Z).
Proof.
  destruct (pretrained_run true) as [[[self vocab]|e] w'] eqn:E.
  - exists self, vocab, w'. split; [reflexivity|].
    destruct (from_pretrained_rows_follow_ids _ _ _ _ _ _ _ _ _ E)
      as (c & w1 & t & r & Hf & Hr & Hfile & Hpad & Hunk).
    destruct (pretrained_tokens _ _ _ _ Hf Hr) as (-> & -> & Hrnd).
    rewrite Hrnd in Hpad.
    split; [apply (Hfile 0); reflexivity|].
    split; [apply (Hfile 1); reflexivity|].
    split; [exact Hpad | exact Hunk].
  - pose proof (pretrained_run_ok true) as Hok. rewrite E in Hok.
    discriminate Hok.
Defined.

Lemma load_well_formed_witness :
  ∃ self w',
    load (txt "m") (txt "/r") world_short_rows = (Ok self, w')
    ∧ ∃ content,
        fs world_short_rows
          !! os_path_join (save_folder (txt "/r") (txt "m")) [EMBED_FILENAME]
          = Some (TextFile content)
        ∧ well_formed self
        ∧ vocab_size self
          = length (islice1 (readlines (universal_newlines content)))
        ∧ 1 ≤ vocab_size self
        ∧ NoDup (vocab_keys (get_word_vocab self)).
Proof.
  destruct (load (txt "m") (txt "/r") world_short_rows)
    as [[self|e] w'] eqn:E.
  - exists self, w'. split; [reflexivity|].
    exact (load_well_formed _ _ _ _ _ E).
  - pose proof load_short_rows_ok as Hok. rewrite E in Hok.
    discriminate Hok.
Defined.

Lemma load_rows_follow_lines_witness :
  ∃ self w',
    load (txt "m") (txt "/r") world_short_rows = (Ok self, w')
    ∧ ∃ content,
        fs world_short_rows
          !! os_path_join (save_folder (txt "/r") (txt "m")) [EMBED_FILENAME]
          = Some (TextFile content)
        ∧ ∀ i line,
            islice1 (readlines (universal_newlines content)) !! i
              = Some line →
            ∃ word rest,
              split_maxsplit1 line = [word; rest]
              ∧ token_to_id (get_word_vocab self) word = Some i
              ∧ row_of (embed self) i = np_fromstring rest.
Proof.
  destruct (load (txt "m") (txt "/r") world_short_rows)
    as [[self|e] w'] eqn:E.
  - exists self, w'. split; [reflexivity|].
    exact (load_rows_follow_lines _ _ _ _ _ E).
  - pose proof load_short_rows_ok as Hok. rewrite E in Hok.
    discriminate Hok.
Defined.

Lemma load_hyperparameters_witness :
  ∃ self w',
    load (txt "m") (txt "/r") world_short_rows = (Ok self, w')
    ∧ ∃ hyper,
        fs world_short_rows
          !! os_path_join (save_folder (txt "/r") (txt "m")) [JSON_FILENAME]
          = Some (JsonFile hyper)
        ∧ hyper !! txt "vocab" = None ∧ hyper !! txt "init_embed" = None
        ∧ requires_grad self
          = default (JBool true) (hyper !! txt "requires_grad")
        ∧ dropout_p self = default (JNum (1 # 2)) (hyper !! txt "dropout")
        ∧ train_state self
          = default (JBool true) (hyper !! txt "train_state")
        ∧ kwargs self
          = delete (txt "train_state")
              (delete (txt "dropout") (delete (txt "requires_grad") hyper)).
Proof.
  destruct (load (txt "m") (txt "/r") world_short_rows)
    as [[self|e] w'] eqn:E.
  - exists self, w'. split; [reflexivity|].
    exact (load_hyperparameters _ _ _ _ _ E).
  - pose proof load_short_rows_ok as Hok. rewrite E in Hok.
    discriminate Hok.
Defined.

Lemma save_writes_two_files_witness :
  ∃ r w',
    save small_instance (txt "m") (txt "/r") world_pretrained = (r, w')
    ∧ fs w' !! saved_json_path = Some (JsonFile (hyper_of small_instance))
    ∧ (∃ c, fs w' !! saved_embed_path = Some (TextFile c))
    ∧ fs w' !! pretrained_path = fs world_pretrained !! pretrained_path.
Proof.
  destruct (save small_instance (txt "m") (txt "/r") world_pretrained)
    as [r w'] eqn:E.
  exists r, w'. split; [reflexivity|].
  destruct (save_writes_two_files small_instance (txt "m") (txt "/r")
              world_pretrained w' r E) as (Hj & He & Hframe).
  split; [exact Hj|]. split; [exact He|].
  apply Hframe; vm_compute; discriminate.
Defined.

Lemma save_configuration_witness :
  ∃ r w',
    save small_instance (txt "m") (txt "/r") world_empty = (r, w')
    ∧ ∃ blob,
        fs w' !! saved_json_path = Some (JsonFile blob)
        ∧ blob !! txt "dropout" = Some (JNum (1 # 2))
        ∧ blob !! txt "requires_grad" = Some (JBool true)
        ∧ blob !! txt "train_state" = Some (JBool true)
        ∧ ∀ k, k ≠ txt "dropout" → k ≠ txt "requires_grad" →
               k ≠ txt "train_state" →
               blob !! k = kwargs small_instance !! k.
Proof.
  destruct (save small_instance (txt "m") (txt "/r") world_empty)
    as [r w'] eqn:E.
  exists r, w'. split; [reflexivity|].
  exact (save_configuration small_instance (txt "m") (txt "/r")
           world_empty w' r E).
Defined.

Lemma save_twice_witness :
  ∃ r w1,
    save small_instance (txt "m") (txt "/r") world_empty = (r, w1)
    ∧ ∃ w2, save small_instance (txt "m") (txt "/r") w1 = (r, w2)
            ∧ fs w2 = fs w1.
Proof.
  destruct (save small_instance (txt "m") (txt "/r") world_empty)
    as [r w1] eqn:E.
  exists r, w1. split; [reflexivity|].
  exact (save_twice small_instance (txt "m") (txt "/r") world_empty w1 r E).
Defined.

Lemma save_stops_at_missing_token_witness :
  hd 0 (shape (embed short_vocab_instance)) = 2
  ∧ length (vocab_keys (get_word_vocab short_vocab_instance)) = 1
  ∧ ∃ w',
      save short_vocab_instance (txt "m") (txt "/r") world_empty
      = (Raise (IndexError (txt "list index out of range")), w')
      ∧ fs w' !! saved_embed_path
        = Some (TextFile
            (replicate 30 SP ++ [NL] ++ txt "cat 1.0 2.0" ++ [NL])).
Proof.
  split; [reflexivity|]. split; [reflexivity|].
  destruct (save_stops_at_missing_token short_vocab_instance (txt "m")
              (txt "/r") world_empty) as (w' & Hs & Hf).
  - reflexivity.
  - simpl. lia.
  - exists w'. split; [exact Hs|].
    assert (Hpath : os_path_join (save_folder (txt "/r") (txt "m"))
                      [EMBED_FILENAME] = saved_embed_path)
      by (vm_compute; reflexivity).
    rewrite Hpath in Hf. rewrite Hf. vm_compute. reflexivity.
Defined.

Lemma save_load_hyperparameters_witness :
  ∃ w1 self' w2,
    save small_instance (txt "m") (txt "/r") world_empty = (Ok tt, w1)
    ∧ load (txt "m") (txt "/r") w1 = (Ok self', w2)
    ∧ requires_grad self' = JBool true
    ∧ dropout_p self' = JNum (1 # 2)
    ∧ train_state self' = JBool true
    ∧ ∀ k, k ≠ txt "dropout" → k ≠ txt "requires_grad" →
           k ≠ txt "train_state" →
           kwargs self' !! k = kwargs small_instance !! k.
Proof.
  pose proof save_small_ok as Hs. pose proof load_saved_small_ok as Hl.
  destruct (save small_instance (txt "m") (txt "/r") world_empty)
    as [r1 w1] eqn:E1.
  cbn [fst snd] in Hs, Hl. subst r1.
  destruct (load (txt "m") (txt "/r") w1) as [[self'|e] w2] eqn:E2.
  - exists w1, self', w2. split; [reflexivity|]. split; [exact E2|].
    exact (save_load_hyperparameters small_instance self' (txt "m")
             (txt "/r") world_empty w1 w2 E1 E2).
  - discriminate Hl.
Defined.

Lemma header_line_is_skipped_witness :
  Forall line_char (txt "2 2")
  ∧ Forall line_char (txt "two tokens")
  ∧ read_vectors (F := Z) (txt "2 2" ++ NL :: txt "cat 1.0")
    = read_vectors (txt "two tokens" ++ NL :: txt "cat 1.0").
Proof.
  assert (H1 : Forall line_char (txt "2 2"))
    by (repeat (constructor; [split; discriminate|]); constructor).
  assert (H2 : Forall line_char (txt "two tokens"))
    by (repeat (constructor; [split; discriminate|]); constructor).
  split; [exact H1|]. split; [exact H2|].
  exact (header_line_is_skipped (txt "2 2") (txt "two tokens")
           (txt "cat 1.0") H1 H2).
Defined.

Lemma parsed_tokens_are_clean_witness :
  read_vectors (F := Z) short_rows_text
    = Ok ([txt "cat"; txt "dog"], [[1]; [3]]%Z)
  ∧ Forall clean [txt "cat"; txt "dog"].
Proof.
  assert (H : read_vectors (F := Z) short_rows_text
              = Ok ([txt "cat"; txt "dog"], [[1]; [3]]%Z))
    by (vm_compute; reflexivity).
  split; [exact H|].
  exact (parsed_tokens_are_clean short_rows_text _ _ H).
Defined.

Lemma from_pretrained_refusal_messages_witness :
  from_pretrained (txt "2M") 200 (txt "/r") default_special_tokens false
    world_empty
  = (Raise (ValueError
       (txt "The argument 'name' must in dict_keys(['1M', '1M-subword']), but got 2M.")),
     world_empty)
  ∧ from_pretrained (txt "1M") 200 (txt "/r") default_special_tokens false
      world_empty
    = (Raise (ValueError
         (txt "The argument 'dims' must in [300], but got 200.")),
       world_empty).
Proof.
  split.
  - apply (proj1 (from_pretrained_refusal_messages (txt "2M") 200 (txt "/r")
                    default_special_tokens false world_empty));
      discriminate.
  - apply (proj2 (from_pretrained_refusal_messages (txt "1M") 200 (txt "/r")
                    default_special_tokens false world_empty)).
    + left. reflexivity.
    + discriminate.
Defined.

Lemma from_pretrained_then_construct_witness :
  ∃ self vocab w',
    pretrained_run false = (Ok (self, vocab), w')
    ∧ (∃ id, token_to_id vocab (txt "cat") = Some id
             ∧ construct self (NDArray [1] [Z.of_nat id])
               = Ok (nn_dropout (JNum (1 # 2))
                       (NDArray [1; 300] (replicate 300 1%Z))))
    ∧ (∃ id, token_to_id vocab (txt "dog") = Some id
             ∧ construct self (NDArray [1] [Z.of_nat id])
               = Ok (nn_dropout (JNum (1 # 2))
                       (NDArray [1; 300] (replicate 300 2%Z)))).
Proof.
  destruct (pretrained_run false) as [[[self vocab]|e] w'] eqn:E.
  - exists self, vocab, w'. split; [reflexivity|].
    destruct (from_pretrained_then_construct _ _ _ _ _ _ _ _ _ E)
      as (c & w1 & t & r & Hf & Hr & Hfile).
    destruct (pretrained_tokens _ _ _ _ Hf Hr) as (-> & -> & _).
    split; [apply (Hfile 0) | apply (Hfile 1)]; reflexivity.
  - pose proof (pretrained_run_ok false) as Hok. rewrite E in Hok.
    discriminate Hok.
Defined.

Lemma save_load_without_columns_witness :
  well_formed no_column_instance
  ∧ Forall clean (vocab_keys (get_word_vocab no_column_instance))
  ∧ ∃ w1,
      save no_column_instance (txt "m") (txt "/r") world_empty = (Ok tt, w1)
      ∧ ∃ msg w2, load (txt "m") (txt "/r") w1 = (Raise (ValueError msg), w2).
Proof.
  assert (Hwf : well_formed no_column_instance) by (vm_compute; auto).
  assert (Hcl : Forall clean (vocab_keys (get_word_vocab no_column_instance)))
    by (apply (bool_decide_unpack _); vm_compute; exact I).
  split; [exact Hwf|]. split; [exact Hcl|].
  apply (save_load_without_columns no_column_instance (txt "m") (txt "/r")
           world_empty Hwf); [reflexivity | simpl; lia | exact Hcl |].
  vm_compute. lia.
Defined.

Lemma load_refuses_malformed_file_witness :
  (∃ msg w', load (txt "m") (txt "/r") world_token_only
             = (Raise (ValueError msg), w'))
  ∧ (∃ msg w', load (txt "m") (txt "/r") world_ragged_rows
               = (Raise (ValueError msg), w')).
Proof.
  split.
  - apply (proj1 (load_refuses_malformed_file (txt "m") (txt "/r")
                    world_token_only ∅ token_only_text
                    ltac:(vm_compute; reflexivity)
                    ltac:(vm_compute; reflexivity))
             (txt "dog" ++ [NL])).
    + vm_compute. right. left.
    + vm_compute. lia.
  - apply (proj2 (load_refuses_malformed_file (txt "m") (txt "/r")
                    world_ragged_rows ∅ ragged_rows_text
                    ltac:(vm_compute; reflexivity)
                    ltac:(vm_compute; reflexivity))
             [txt "cat"; txt "dog"] [1; 2]%Z [3]%Z [[3]%Z]).
    + vm_compute. reflexivity.
    + apply (bool_decide_unpack _). vm_compute. exact I.
    + left.
    + simpl. lia.
Defined.
